(** * ESQL-to-XSD conversion service: a shallow embedding of [Node.js]

    The service is one Express route, [POST /api/convert], in front of one
    rendering function, [convertESQLToXSD].  This development embeds both,
    together with the parts of the JavaScript runtime they lean on (string
    trimming, the [/\.esql$/i] replacement, [ToString], [Buffer] decoding,
    [Date.prototype.toISOString]), and proves the properties the
    specification states about them.

    The embedded listing is the first one of [Node.js] (the
    [express-fileupload] revision), the one the handler of the later
    [express-fileupload] listings repeats; the error-handling middleware that
    only a later listing registers is embedded as [errorMiddleware]. *)

From Stdlib Require Import ZArith List Bool String Ascii Lia.
From Stdlib Require Import DecimalString.
Import ListNotations.
Local Open Scope string_scope.
Local Open Scope list_scope.
Local Open Scope Z_scope.
Set Warnings "-register-all".

(** ** JavaScript strings *)

(** A JavaScript string is a sequence of UTF-16 code units; [length] counts
    code units. *)
Definition code_unit := Z.
Definition jsstring := list code_unit.

(** A string literal of the source (all of them are ASCII). *)
Definition lit (s : string) : jsstring :=
  map (fun a => Z.of_N (N_of_ascii a)) (list_ascii_of_string s).

(** A literal in which the apostrophe stands for the double quote. *)
Definition litq (s : string) : jsstring :=
  map (fun c => if c =? 39 then 34 else c) (lit s).

Definition LF : code_unit := 10.

(** Lines of a template literal, joined by the line feeds between them. *)
Fixpoint join_lines (ls : list jsstring) : jsstring :=
  match ls with
  | [] => []
  | [l] => l
  | l :: rest => l ++ LF :: join_lines rest
  end.

Definition jsstring_eqb (a b : jsstring) : bool :=
  if list_eq_dec Z.eq_dec a b then true else false.

(** ** JavaScript values *)

(** The values a request can carry: what [JSON.parse] produces, plus
    [undefined].  The program never does arithmetic; a number only has its
    truthiness tested and its text taken, so a number is carried as the
    text [Number::toString] gives for it (["0"] for both zeros). *)
Inductive JsVal : Type :=
| JUndefined
| JNull
| JBool (b : bool)
| JNum (text : jsstring)
| JStr (s : jsstring)
| JArr (elems : list JsVal)
| JObj (props : list (jsstring * JsVal)).

(** The number that is the length of a string or array. *)
Definition Number_of_nat (n : nat) : JsVal :=
  JNum (lit (NilZero.string_of_uint (Nat.to_uint n))).

(** Thrown values.  Everything this program throws or provokes is an
    [Error] object; [message] is its message, [kind] its constructor. *)
Inductive ErrorName := ErrorE | TypeErrorE | SyntaxErrorE.
Record Exn := mkExn { kind : ErrorName; message : jsstring }.

Definition Error (msg : string) : Exn := mkExn ErrorE (lit msg).
Definition TypeError (msg : string) : Exn := mkExn TypeErrorE (lit msg).

(** A computation either completes normally or throws. *)
Inductive Completion (A : Type) : Type :=
| Normal (a : A)
| Throw (e : Exn).
Arguments Normal {A} a.
Arguments Throw {A} e.

Definition bind {A B} (c : Completion A) (k : A -> Completion B) : Completion B :=
  match c with
  | Normal a => k a
  | Throw e => Throw e
  end.

Notation "x <- c ;; k" := (bind c (fun x => k))
  (at level 61, c at next level, right associativity).

(** [ToBoolean]: the test behind [!v], [v || w] and [if (v)]. *)
Definition ToBoolean (v : JsVal) : bool :=
  match v with
  | JUndefined | JNull => false
  | JBool b => b
  | JNum t => negb (jsstring_eqb t (lit "0") || jsstring_eqb t (lit "NaN"))
  | JStr s => match s with [] => false | _ => true end
  | JArr _ | JObj _ => true
  end.

(** [a || b]. *)
Definition js_or (a b : JsVal) : JsVal := if ToBoolean a then a else b.

Fixpoint assoc (k : jsstring) (ps : list (jsstring * JsVal)) : option JsVal :=
  match ps with
  | [] => None
  | (k', v) :: rest => if jsstring_eqb k k' then Some v else assoc k rest
  end.

(** [v.k] for the property names this program reads from a request body
    ([content], [esqlContent], [filename]): an own property of a parsed
    object, and [undefined] on a string, an array or an object without it
    (no built-in prototype has these names). *)
Definition Get (v : JsVal) (k : string) : JsVal :=
  match v with
  | JObj ps => match assoc (lit k) ps with Some x => x | None => JUndefined end
  | _ => JUndefined
  end.

(** [ToString], as the template literal applies it.  An object goes through
    [OrdinaryToPrimitive]: a parsed object has only data properties, so an
    own [toString] is not callable and the inherited [valueOf] returns the
    object itself, which throws; otherwise [Object.prototype.toString]
    answers.  An array is joined with commas, [null] elements as empty. *)
Fixpoint ToString (v : JsVal) : Completion jsstring :=
  match v with
  | JUndefined => Normal (lit "undefined")
  | JNull => Normal (lit "null")
  | JBool true => Normal (lit "true")
  | JBool false => Normal (lit "false")
  | JNum t => Normal t
  | JStr s => Normal s
  | JArr elems =>
      (fix join (l : list JsVal) : Completion jsstring :=
         match l with
         | [] => Normal []
         | x :: rest =>
             a <- match x with
                  | JUndefined | JNull => Normal []
                  | _ => ToString x
                  end ;;
             match rest with
             | [] => Normal a
             | _ => b <- join rest ;; Normal (a ++ lit "," ++ b)
             end
         end) elems
  | JObj ps =>
      match assoc (lit "toString") ps with
      | Some _ => Throw (TypeError "Cannot convert object to primitive value")
      | None => Normal (lit "[object Object]")
      end
  end.

(** ** String.prototype.trim and split *)

(** WhiteSpace and LineTerminator code points of ECMAScript. *)
Definition is_js_whitespace (c : code_unit) : bool :=
  (c =? 9) || (c =? 10) || (c =? 11) || (c =? 12) || (c =? 13) || (c =? 32)
  || (c =? 160) || (c =? 5760) || ((8192 <=? c) && (c <=? 8202))
  || (c =? 8232) || (c =? 8233) || (c =? 8239) || (c =? 8287)
  || (c =? 12288) || (c =? 65279).

Fixpoint trimStart (s : jsstring) : jsstring :=
  match s with
  | [] => []
  | c :: rest => if is_js_whitespace c then trimStart rest else s
  end.

Definition trimEnd (s : jsstring) : jsstring := rev (trimStart (rev s)).

Definition trim (s : jsstring) : jsstring := trimEnd (trimStart s).

(** [s.split(sep)] for a one-code-unit separator. *)
Fixpoint split (sep : code_unit) (s : jsstring) : list jsstring :=
  match s with
  | [] => [[]]
  | c :: rest =>
      match split sep rest with
      | [] => [[]]
      | cur :: more => if c =? sep then [] :: cur :: more else (c :: cur) :: more
      end
  end.

(** ** String.prototype.replace with the pattern of the handler *)

(** [Canonicalize] of a case-insensitive pattern without the [u] flag, on
    the side that matters here: an ASCII letter goes to its upper case, and
    a code unit from 128 up never canonicalizes below 128, so against the
    ASCII pattern characters leaving it alone decides the same matches. *)
Definition Canonicalize (c : code_unit) : code_unit :=
  if (97 <=? c) && (c <=? 122) then c - 32 else c.

(** With the [i] flag a pattern character matches an input character when
    the two canonicalize alike. *)
Definition pat_matches (p c : code_unit) : bool :=
  Canonicalize c =? Canonicalize p.

(** The characters of [/\.esql$/i], which the end of input must follow. *)
Definition esql_pattern : list code_unit := lit ".esql".

(** Does the pattern, followed by [$], match at the head of [s]? *)
Fixpoint match_here (pat : list code_unit) (s : jsstring) : bool :=
  match pat, s with
  | [], [] => true
  | [], _ :: _ => false
  | _ :: _, [] => false
  | p :: pat', c :: s' => pat_matches p c && match_here pat' s'
  end.

(** [s.replace(/\.esql$/i, '.xsd')]: the regular expression is not global,
    so the leftmost match is replaced; the replacement has no [$] escape. *)
Fixpoint replace_esql (s : jsstring) : jsstring :=
  if match_here esql_pattern s
  then lit ".xsd" ++ skipn (List.length esql_pattern) s
  else match s with
       | [] => []
       | c :: rest => c :: replace_esql rest
       end.

(** ** Buffer.prototype.toString('utf8') *)

Definition Buffer := list Z.

Record Utf8State := mkUtf8
  { code_point : Z; bytes_needed : nat; lower_boundary : Z; upper_boundary : Z }.

Definition utf8_initial : Utf8State := mkUtf8 0 0 128 191.

Definition REPLACEMENT : Z := 65533.

(** A byte met when no sequence is open: what is emitted, and the state. *)
Definition utf8_lead (b : Z) : list Z * Utf8State :=
  if b <=? 127 then ([b], utf8_initial)
  else if (194 <=? b) && (b <=? 223) then ([], mkUtf8 (Z.land b 31) 1 128 191)
  else if (224 <=? b) && (b <=? 239) then
    ([], mkUtf8 (Z.land b 15) 2 (if b =? 224 then 160 else 128)
                                (if b =? 237 then 159 else 191))
  else if (240 <=? b) && (b <=? 244) then
    ([], mkUtf8 (Z.land b 7) 3 (if b =? 240 then 144 else 128)
                               (if b =? 244 then 143 else 191))
  else ([REPLACEMENT], utf8_initial).

(** The decoder of the Encoding Standard, without byte-order-mark removal:
    a malformed sequence becomes U+FFFD and its offending byte is decoded
    again as the start of a new sequence. *)
Fixpoint utf8_decode (st : Utf8State) (bytes : Buffer) : list Z :=
  match bytes with
  | [] => match bytes_needed st with O => [] | S _ => [REPLACEMENT] end
  | b :: rest =>
      match bytes_needed st with
      | O => let '(out, st') := utf8_lead b in out ++ utf8_decode st' rest
      | S k =>
          if (lower_boundary st <=? b) && (b <=? upper_boundary st) then
            let cp := Z.lor (Z.shiftl (code_point st) 6) (Z.land b 63) in
            match k with
            | O => cp :: utf8_decode utf8_initial rest
            | S _ => utf8_decode (mkUtf8 cp k 128 191) rest
            end
          else
            let '(out, st') := utf8_lead b in
            REPLACEMENT :: out ++ utf8_decode st' rest
      end
  end.

(** A code point as UTF-16 code units. *)
Definition utf16_encode (cp : Z) : jsstring :=
  if cp <? 65536 then [cp]
  else [55296 + (cp - 65536) / 1024; 56320 + (cp - 65536) mod 1024].

Definition Buffer_toString_utf8 (data : Buffer) : jsstring :=
  flat_map utf16_encode (utf8_decode utf8_initial data).

(** ** Date.prototype.toISOString *)

(** The last [k] decimal digits of [n], most significant first. *)
Fixpoint pad_digits (k : nat) (n : Z) : jsstring :=
  match k with
  | O => []
  | S k' => pad_digits k' (n / 10) ++ [48 + n mod 10]
  end.

Definition msPerDay : Z := 86400000.

(** Year, month (1 to 12) and day of the month of a day number counted
    from 1970-01-01, in the proleptic Gregorian calendar. *)
Definition civil_from_days (day : Z) : Z * Z * Z :=
  let z := day + 719468 in
  let era := z / 146097 in
  let doe := z mod 146097 in
  let yoe := (doe - doe / 1460 + doe / 36524 - doe / 146096) / 365 in
  let doy := doe - (365 * yoe + yoe / 4 - yoe / 100) in
  let mp := (5 * doy + 2) / 153 in
  let d := doy - (153 * mp + 2) / 5 + 1 in
  let m := if mp <? 10 then mp + 3 else mp - 9 in
  let y := yoe + era * 400 + (if m <=? 2 then 1 else 0) in
  (y, m, d).

Definition year_text (y : Z) : jsstring :=
  if (0 <=? y) && (y <=? 9999) then pad_digits 4 y
  else (if y <? 0 then lit "-" else lit "+") ++ pad_digits 6 (Z.abs y).

(** [new Date(t).toISOString()] for a time value [t] in milliseconds since
    the epoch: [YYYY-MM-DDTHH:mm:ss.sssZ], the year widened to a sign and
    six digits outside 0..9999. *)
Definition toISOString (t : Z) : jsstring :=
  let '(y, m, d) := civil_from_days (t / msPerDay) in
  let ms := t mod msPerDay in
  year_text y ++ lit "-" ++ pad_digits 2 m ++ lit "-" ++ pad_digits 2 d
  ++ lit "T" ++ pad_digits 2 (ms / 3600000)
  ++ lit ":" ++ pad_digits 2 (ms / 60000 mod 60)
  ++ lit ":" ++ pad_digits 2 (ms / 1000 mod 60)
  ++ lit "." ++ pad_digits 3 (ms mod 1000) ++ lit "Z".

(** ** convertESQLToXSD *)

(** The template literal, cut at its two substitutions.  In these literals
    the apostrophe stands for the double quote of the source. *)
Definition template_head : jsstring := join_lines (map litq [
    "<?xml version='1.0' encoding='UTF-8'?>";
    "<xs:schema xmlns:xs='http://www.w3.org/2001/XMLSchema'";
    "           targetNamespace='http://esql.conversion.schema'";
    "           xmlns:tns='http://esql.conversion.schema'";
    "           elementFormDefault='qualified'";
    "           attributeFormDefault='unqualified'>";
    "    ";
    "    <!-- Generated from ESQL file: " ]).

Definition template_mid : jsstring := join_lines (map litq [
    " -->";
    "    <!-- Generated on: " ]).

Definition template_tail : jsstring := join_lines (map litq [
    " -->";
    "    ";
    "    <!-- Root element definition -->";
    "    <xs:element name='TransformedMessage' type='tns:TransformedMessageType'/>";
    "    ";
    "    <!-- Main complex type for transformed message -->";
    "    <xs:complexType name='TransformedMessageType'>";
    "        <xs:sequence>";
    "            <xs:element name='Header' type='tns:HeaderType' minOccurs='0'/>";
    "            <xs:element name='Body' type='tns:BodyType' minOccurs='0'/>";
    "            <xs:element name='ProcessingInfo' type='tns:ProcessingInfoType' minOccurs='0'/>";
    "        </xs:sequence>";
    "    </xs:complexType>";
    "    ";
    "    <!-- Header type definition -->";
    "    <xs:complexType name='HeaderType'>";
    "        <xs:sequence>";
    "            <xs:element name='MessageID' type='xs:string' minOccurs='0'/>";
    "            <xs:element name='Timestamp' type='xs:dateTime' minOccurs='0'/>";
    "            <xs:element name='Source' type='xs:string' minOccurs='0'/>";
    "            <xs:element name='Destination' type='xs:string' minOccurs='0'/>";
    "        </xs:sequence>";
    "    </xs:complexType>";
    "    ";
    "    <!-- Processing info type -->";
    "    <xs:complexType name='ProcessingInfoType'>";
    "        <xs:sequence>";
    "            <xs:element name='Timestamp' type='xs:dateTime' minOccurs='0'/>";
    "            <xs:element name='ProcessedBy' type='xs:string' minOccurs='0'/>";
    "            <xs:element name='Status' type='tns:ProcessingStatusType' minOccurs='0'/>";
    "        </xs:sequence>";
    "    </xs:complexType>";
    "    ";
    "    <!-- Processing status enumeration -->";
    "    <xs:simpleType name='ProcessingStatusType'>";
    "        <xs:restriction base='xs:string'>";
    "            <xs:enumeration value='SUCCESS'/>";
    "            <xs:enumeration value='PROCESSING'/>";
    "            <xs:enumeration value='ERROR'/>";
    "            <xs:enumeration value='COMPLETED'/>";
    "        </xs:restriction>";
    "    </xs:simpleType>";
    "";
    "    <!-- Body type definition -->";
    "    <xs:complexType name='BodyType'>";
    "        <xs:sequence>";
    "            <xs:element name='ProcessingResult' type='xs:string' minOccurs='0'/>";
    "            <xs:element name='ProcessedElements' type='xs:integer' minOccurs='0'/>";
    "        </xs:sequence>";
    "    </xs:complexType>";
    "";
    "</xs:schema>" ]).

(** The rendered document for a file-name text and a clock reading. *)
Definition render (fileNameText : jsstring) (now : Z) : jsstring :=
  template_head ++ fileNameText ++ template_mid ++ toISOString now ++ template_tail.

(** [esqlCode.trim()]: a method call, so a type error on anything that is
    not a string (a parsed object can hold a [trim] property, never a
    function). *)
Definition call_trim (esqlCode : JsVal) : Completion jsstring :=
  match esqlCode with
  | JStr s => Normal (trim s)
  | _ => Throw (TypeError "esqlCode.trim is not a function")
  end.

(** [convertESQLToXSD(esqlCode, originalFileName)], with [now] the value
    [new Date()] takes inside it.  The handler always passes a file name,
    so the default parameter value never applies. *)
Definition convertESQLToXSD (esqlCode originalFileName : JsVal) (now : Z)
  : Completion jsstring :=
  if negb (ToBoolean esqlCode) then Throw (Error "ESQL content is empty") else
  trimmed <- call_trim esqlCode ;;
  if jsstring_eqb trimmed [] then Throw (Error "ESQL content is empty") else
  let lines :=
    match esqlCode with
    | JStr s => filter (fun line => 0 <? Z.of_nat (List.length line))
                       (map trim (split LF s))
    | _ => []
    end in
  nameText <- ToString originalFileName ;;
  let xsdContent := render nameText now in
  Normal xsdContent.

(** ** The request and the response *)

(** A file as [express-fileupload] hands it over (the fields the handler
    reads). *)
Record UploadedFile := mkFile { name : jsstring; data : Buffer }.

(** A field of [req.files]: one file, or an array of files when the form
    repeats the field. *)
Inductive Upload :=
| OneFile (f : UploadedFile)
| ManyFiles (fs : list UploadedFile).

(** [req.files] is absent unless the request is a multipart upload;
    [req.body] is a string (text body), a parsed object or array (JSON body),
    the object of the form's text fields (multipart), or absent. *)
Record Request := mkRequest
  { files : option (list (jsstring * Upload)); body : JsVal }.

(** What [res.status(s).json(v)] sends; [res.json(v)] alone sends 200. *)
Record Response := mkResponse { status : Z; json : JsVal }.

(** [req.files && req.files.file], when truthy. *)
Definition req_files_file (req : Request) : option Upload :=
  match files req with
  | None => None
  | Some fields =>
      (fix find (l : list (jsstring * Upload)) : option Upload :=
         match l with
         | [] => None
         | (k, u) :: rest => if jsstring_eqb k (lit "file") then Some u else find rest
         end) fields
  end.

(** [req.files.file.data.toString('utf8')]: an array has no [data]. *)
Definition file_data_toString (u : Upload) : Completion JsVal :=
  match u with
  | OneFile f => Normal (JStr (Buffer_toString_utf8 (data f)))
  | ManyFiles _ =>
      Throw (TypeError "Cannot read properties of undefined (reading 'toString')")
  end.

(** [req.files.file.name]. *)
Definition file_name (u : Upload) : JsVal :=
  match u with
  | OneFile f => JStr (name f)
  | ManyFiles _ => JUndefined
  end.

(** [typeof v === 'string']. *)
Definition typeof_string (v : JsVal) : bool :=
  match v with JStr _ => true | _ => false end.

(** The first statements of the handler: the two [let]s and the [if] /
    [else if] that fills them.  The result is the pair
    [(esqlContent, fileName)]. *)
Definition extract (req : Request) : Completion (JsVal * JsVal) :=
  let esqlContent := JStr (lit "") in
  let fileName := JStr (lit "unknown.esql") in
  match req_files_file req with
  | Some file =>
      esqlContent <- file_data_toString file ;;
      let fileName := file_name file in
      Normal (esqlContent, fileName)
  | None =>
      if ToBoolean (body req) then
        let esqlContent :=
          if typeof_string (body req) then body req
          else js_or (Get (body req) "content") (Get (body req) "esqlContent") in
        let fileName := js_or (Get (body req) "filename") (JStr (lit "input.esql")) in
        Normal (esqlContent, fileName)
      else Normal (esqlContent, fileName)
  end.

(** [fileName.replace(/\.esql$/i, '.xsd')]: a method call, so a type error
    on a file name that is not a string. *)
Definition fileName_replace (fileName : JsVal) : Completion jsstring :=
  match fileName with
  | JStr s => Normal (replace_esql s)
  | _ => Throw (TypeError "fileName.replace is not a function")
  end.

(** [v.length] of a string. *)
Definition js_length (v : JsVal) : JsVal :=
  match v with
  | JStr s => Number_of_nat (List.length s)
  | _ => JUndefined
  end.

(** The body of the [try] block.  [now1] is the clock as
    [convertESQLToXSD] reads it, [now2] as the response object reads it. *)
Definition convert_try (req : Request) (now1 now2 : Z) : Completion Response :=
  ef <- extract req ;;
  let '(esqlContent, fileName) := ef in
  if negb (ToBoolean esqlContent) then Throw (Error "No ESQL content provided") else
  xsdContent <- convertESQLToXSD esqlContent fileName now1 ;;
  outputFileName <- fileName_replace fileName ;;
  Normal (mkResponse 200 (JObj [
    (lit "success", JBool true);
    (lit "originalFileName", fileName);
    (lit "convertedFileName", JStr outputFileName);
    (lit "xsdContent", JStr xsdContent);
    (lit "esqlContentLength", js_length esqlContent);
    (lit "xsdContentLength", js_length (JStr xsdContent));
    (lit "conversionDate", JStr (toISOString now2));
    (lit "conversionType", JStr (lit "ESQL_TO_XSD")) ])).

(** [try { ... } catch (error) { ... }]. *)
Definition try_catch {A} (block : Completion A) (handler : Exn -> Completion A)
  : Completion A :=
  match block with
  | Normal a => Normal a
  | Throw error => handler error
  end.

(** The handler of [POST /api/convert]. *)
Definition post_api_convert (req : Request) (now1 now2 : Z) : Completion Response :=
  try_catch (convert_try req now1 now2) (fun error =>
    Normal (mkResponse 400 (JObj [
      (lit "success", JBool false);
      (lit "error", JStr (message error)) ]))).

(** The error-handling middleware of the listing that registers one. *)
Definition errorMiddleware (error : Exn) : Response :=
  mkResponse 500 (JObj [
    (lit "success", JBool false);
    (lit "error", JStr (lit "Internal server error")) ]).

(** Express runs a route handler and passes what it throws to the
    error-handling middleware in force, [onError]: the one above where it
    is registered, the framework's own otherwise. *)
Definition dispatch (route : Completion Response) (onError : Exn -> Response)
  : Response :=
  match route with
  | Normal res => res
  | Throw error => onError error
  end.

(** ** In front of the handler *)

(** An error a middleware passes on instead of calling the handler: the
    error object, and the HTTP status it carries if it carries one (the body
    parsers registered with [app.use] give their errors one: 400 for a body
    that does not parse, 413 for one over the limit). *)
Record MiddlewareError := mkMiddlewareError
  { thrown : Exn; http_status : option Z }.

(** What arrives at the route once the middleware registered before it has
    run: the request as the parsers left it, or the error of a parser. *)
Inductive Inbound :=
| Accepted (req : Request)
| Rejected (err : MiddlewareError).

(** What the client receives: a JSON response, or the HTML error page of
    the framework for an error, with its status. *)
Inductive Reply :=
| JsonReply (res : Response)
| ErrorPage (code : Z) (error : Exn).


(** The error handling Express falls back on where the application
    registers none: an HTML page, with the status of the error when that is
    a 4xx or a 5xx and with 500 otherwise. *)
Definition finalhandler (err : MiddlewareError) : Reply :=
  ErrorPage
    match http_status err with
    | Some code => if (400 <=? code) && (code <? 600) then code else 500
    | None => 500
    end
    (thrown err).

(** [POST /api/convert] of the first listing as the client sees it: the
    middleware of lines 8 to 14, the handler, and no error-handling
    middleware of the application's own. *)
Definition api_convert (inbound : Inbound) (now1 now2 : Z) : Reply :=
  match inbound with
  | Rejected err => finalhandler err
  | Accepted req =>
      match post_api_convert req now1 now2 with
      | Normal res => JsonReply res
      | Throw error => finalhandler (mkMiddlewareError error None)
      end
  end.

(** ** Well-formed XML *)

(** Well-formedness after the XML 1.0 recommendation (fifth edition): the
    [document] production and its well-formedness constraints, for documents
    without a document type declaration, as a recogniser that reads one
    code point at a time.  It covers the XML declaration, comments,
    processing instructions, elements with attributes (names unique within a
    tag, tags properly nested, one root), character data, CDATA sections,
    character references and the five predefined entities. *)
Module XML.

Definition is_char (c : Z) : bool :=
  (c =? 9) || (c =? 10) || (c =? 13)
  || ((32 <=? c) && (c <=? 55295))
  || ((57344 <=? c) && (c <=? 65533))
  || ((65536 <=? c) && (c <=? 1114111)).

Definition is_space (c : Z) : bool :=
  (c =? 32) || (c =? 9) || (c =? 13) || (c =? 10).

Definition in_range (lo hi c : Z) : bool := (lo <=? c) && (c <=? hi).

Definition is_name_start (c : Z) : bool :=
  (c =? 58) || in_range 65 90 c || (c =? 95) || in_range 97 122 c
  || in_range 192 214 c || in_range 216 246 c || in_range 248 767 c
  || in_range 880 893 c || in_range 895 8191 c || in_range 8204 8205 c
  || in_range 8304 8591 c || in_range 11264 12271 c
  || in_range 12289 55295 c || in_range 63744 64975 c
  || in_range 65008 65533 c || in_range 65536 983039 c.

Definition is_name_char (c : Z) : bool :=
  is_name_start c || (c =? 45) || (c =? 46) || in_range 48 57 c
  || (c =? 183) || in_range 768 879 c || in_range 8255 8256 c.

Definition is_digit (c : Z) : bool := in_range 48 57 c.

Definition hex_value (c : Z) : option Z :=
  if in_range 48 57 c then Some (c - 48)
  else if in_range 65 70 c then Some (c - 55)
  else if in_range 97 102 c then Some (c - 87)
  else None.

Definition name := list Z.

Definition name_eqb (a b : name) : bool := jsstring_eqb a b.

(** A tag under construction: an element's start tag, or the XML
    declaration, whose pseudo-attributes have the shape of attributes. *)
Inductive TagKind :=
| Element (n : name)
| Declaration.

(** Where a reference returns to. *)
Inductive Context :=
| InContent
| InAttribute (k : TagKind) (attrs : list (name * list Z)) (an : name)
              (quote : Z) (val : list Z).

Inductive RefState :=
| RefStart
| CharRefStart
| CharRefDec (v : Z)
| CharRefHexStart
| CharRefHex (v : Z)
| EntityRef (acc : name).

Inductive Mode :=
| MText (brackets : nat)
| MLt (at0 : bool)
| MBang
| MBangDash
| MComment (dashes : nat)
| MCDataOpen (expect : list Z)
| MCData (brackets : nat)
| MPITarget (at0 : bool) (acc : name)
| MPIBody (question : bool)
| MPIEnd
| MStartName (acc : name)
| MInTag (k : TagKind) (attrs : list (name * list Z)) (spaced : bool)
| MAttName (k : TagKind) (attrs : list (name * list Z)) (acc : name)
| MAttEq (k : TagKind) (attrs : list (name * list Z)) (an : name) (seen : bool)
| MAttVal (k : TagKind) (attrs : list (name * list Z)) (an : name)
          (quote : Z) (val : list Z)
| MSlash (n : name)
| MDeclEnd (attrs : list (name * list Z))
| MEndName (acc : name)
| MEndSpace (n : name)
| MRef (ret : Context) (r : RefState).

Record State := mkState
  { mode : Mode;
    open_elements : list name;
    root_done : bool;
    at_start : bool }.

Definition initial : State := mkState (MText 0) [] false true.

Definition goto (st : State) (m : Mode) : option State :=
  Some (mkState m (open_elements st) (root_done st) false).

Definition inside (st : State) : bool :=
  match open_elements st with [] => false | _ => true end.

(** An element has just been closed, or was empty. *)
Definition closed (st : State) (rest : list name) : option State :=
  Some (mkState (MText 0) rest
                (match rest with [] => true | _ => root_done st end) false).

Definition resume (st : State) (ret : Context) : option State :=
  match ret with
  | InContent => goto st (MText 0)
  | InAttribute k attrs an q val => goto st (MAttVal k attrs an q val)
  end.

Definition is_xml_ci (n : name) : bool :=
  match n with
  | [x; m; l] => ((x =? 120) || (x =? 88)) && ((m =? 109) || (m =? 77))
                 && ((l =? 108) || (l =? 76))
  | _ => false
  end.

Definition predefined_entity (n : name) : bool :=
  name_eqb n (lit "lt") || name_eqb n (lit "gt") || name_eqb n (lit "amp")
  || name_eqb n (lit "apos") || name_eqb n (lit "quot").

Definition version_num (v : list Z) : bool :=
  match v with
  | 49 :: 46 :: d :: ds => forallb is_digit (d :: ds)
  | _ => false
  end.

Definition enc_name (v : list Z) : bool :=
  match v with
  | c :: cs =>
      (in_range 65 90 c || in_range 97 122 c)
      && forallb (fun x => in_range 65 90 x || in_range 97 122 x || is_digit x
                           || (x =? 46) || (x =? 95) || (x =? 45)) cs
  | [] => false
  end.

Definition yes_no (v : list Z) : bool :=
  name_eqb v (lit "yes") || name_eqb v (lit "no").

(** [XMLDecl]: version, then optionally encoding, then optionally
    standalone; [attrs] is in document order. *)
Definition valid_declaration (attrs : list (name * list Z)) : bool :=
  match attrs with
  | (v, vv) :: rest =>
      name_eqb v (lit "version") && version_num vv &&
      match rest with
      | [] => true
      | [(a, av)] =>
          (name_eqb a (lit "encoding") && enc_name av)
          || (name_eqb a (lit "standalone") && yes_no av)
      | [(a, av); (b, bv)] =>
          name_eqb a (lit "encoding") && enc_name av
          && name_eqb b (lit "standalone") && yes_no bv
      | _ => false
      end
  | [] => false
  end.

Definition bump (n : nat) : nat := match n with O => 1%nat | _ => 2%nat end.

Definition push (st : State) (n : name) : option State :=
  Some (mkState (MText 0) (n :: open_elements st) (root_done st) false).

(** An end tag closes the innermost open element, by name. *)
Definition close_tag (st : State) (n : name) : option State :=
  match open_elements st with
  | top :: rest => if name_eqb top n then closed st rest else None
  | [] => None
  end.

Definition step_ref (st : State) (ret : Context) (r : RefState) (c : Z)
  : option State :=
  match r with
  | RefStart =>
      if c =? 35 then goto st (MRef ret CharRefStart)
      else if is_name_start c then goto st (MRef ret (EntityRef [c]))
      else None
  | CharRefStart =>
      if c =? 120 then goto st (MRef ret CharRefHexStart)
      else if is_digit c then goto st (MRef ret (CharRefDec (c - 48)))
      else None
  | CharRefDec v =>
      if is_digit c then goto st (MRef ret (CharRefDec (10 * v + (c - 48))))
      else if (c =? 59) && is_char v then resume st ret
      else None
  | CharRefHexStart =>
      match hex_value c with
      | Some h => goto st (MRef ret (CharRefHex h))
      | None => None
      end
  | CharRefHex v =>
      match hex_value c with
      | Some h => goto st (MRef ret (CharRefHex (16 * v + h)))
      | None => if (c =? 59) && is_char v then resume st ret else None
      end
  | EntityRef acc =>
      if is_name_char c then goto st (MRef ret (EntityRef (acc ++ [c])))
      else if (c =? 59) && predefined_entity acc then resume st ret
      else None
  end.

(** One code point; [None] when the document cannot be well-formed. *)
Definition step (st : State) (c : Z) : option State :=
  match mode st with
  | MText b =>
      if c =? 60 then goto st (MLt (at_start st))
      else if inside st then
        if c =? 38 then goto st (MRef InContent RefStart)
        else if c =? 93 then goto st (MText (bump b))
        else if c =? 62 then
          if (2 <=? b)%nat then None else goto st (MText 0)
        else if is_char c then goto st (MText 0)
        else None
      else if is_space c then goto st (MText 0)
      else None
  | MLt at0 =>
      if c =? 33 then goto st MBang
      else if c =? 63 then goto st (MPITarget at0 [])
      else if c =? 47 then
        if inside st then goto st (MEndName []) else None
      else if is_name_start c then
        if inside st || negb (root_done st) then goto st (MStartName [c])
        else None
      else None
  | MBang =>
      if c =? 45 then goto st MBangDash
      else if c =? 91 then
        if inside st then goto st (MCDataOpen (lit "CDATA[")) else None
      else None
  | MBangDash => if c =? 45 then goto st (MComment 0) else None
  | MComment d =>
      if (d <? 2)%nat then
        if c =? 45 then goto st (MComment (S d))
        else if is_char c then goto st (MComment 0)
        else None
      else if c =? 62 then goto st (MText 0)
      else None
  | MCDataOpen expect =>
      match expect with
      | [] => None
      | [e] => if c =? e then goto st (MCData 0) else None
      | e :: rest => if c =? e then goto st (MCDataOpen rest) else None
      end
  | MCData b =>
      if c =? 93 then goto st (MCData (bump b))
      else if (c =? 62) && (2 <=? b)%nat then goto st (MText 0)
      else if is_char c then goto st (MCData 0)
      else None
  | MPITarget at0 acc =>
      match acc with
      | [] => if is_name_start c then goto st (MPITarget at0 [c]) else None
      | _ =>
          if is_name_char c then goto st (MPITarget at0 (acc ++ [c]))
          else if is_space c then
            if is_xml_ci acc then
              if at0 && name_eqb acc (lit "xml")
              then goto st (MInTag Declaration [] true)
              else None
            else goto st (MPIBody false)
          else if c =? 63 then
            if is_xml_ci acc then None else goto st MPIEnd
          else None
      end
  | MPIBody q =>
      if (c =? 62) && q then goto st (MText 0)
      else if is_char c then goto st (MPIBody (c =? 63))
      else None
  | MPIEnd => if c =? 62 then goto st (MText 0) else None
  | MStartName acc =>
      if is_name_char c then goto st (MStartName (acc ++ [c]))
      else if is_space c then goto st (MInTag (Element acc) [] true)
      else if c =? 62 then push st acc
      else if c =? 47 then goto st (MSlash acc)
      else None
  | MInTag k attrs spaced =>
      if is_space c then goto st (MInTag k attrs true)
      else if spaced && is_name_start c then goto st (MAttName k attrs [c])
      else
        match k with
        | Element n =>
            if c =? 62 then push st n
            else if c =? 47 then goto st (MSlash n)
            else None
        | Declaration =>
            if c =? 63 then goto st (MDeclEnd attrs) else None
        end
  | MAttName k attrs acc =>
      if is_name_char c then goto st (MAttName k attrs (acc ++ [c]))
      else if c =? 61 then goto st (MAttEq k attrs acc true)
      else if is_space c then goto st (MAttEq k attrs acc false)
      else None
  | MAttEq k attrs an seen =>
      if is_space c then goto st (MAttEq k attrs an seen)
      else if seen then
        if (c =? 34) || (c =? 39) then goto st (MAttVal k attrs an c [])
        else None
      else if c =? 61 then goto st (MAttEq k attrs an true)
      else None
  | MAttVal k attrs an q val =>
      if c =? q then
        if existsb (fun p => name_eqb (fst p) an) attrs then None
        else goto st (MInTag k (attrs ++ [(an, val)]) false)
      else if c =? 60 then None
      else if (c =? 38) && match k with Element _ => true | Declaration => false end
      then goto st (MRef (InAttribute k attrs an q val) RefStart)
      else if is_char c then goto st (MAttVal k attrs an q (val ++ [c]))
      else None
  | MSlash n => if c =? 62 then closed st (open_elements st) else None
  | MDeclEnd attrs =>
      if (c =? 62) && valid_declaration attrs then goto st (MText 0) else None
  | MEndName acc =>
      match acc with
      | [] => if is_name_start c then goto st (MEndName [c]) else None
      | _ =>
          if is_name_char c then goto st (MEndName (acc ++ [c]))
          else if is_space c then goto st (MEndSpace acc)
          else if c =? 62 then close_tag st acc
          else None
      end
  | MEndSpace n =>
      if is_space c then goto st (MEndSpace n)
      else if c =? 62 then close_tag st n
      else None
  | MRef ret r => step_ref st ret r c
  end.

Definition step_opt (o : option State) (c : Z) : option State :=
  match o with
  | Some st => step st c
  | None => None
  end.

Definition run (o : option State) (doc : list Z) : option State :=
  fold_left step_opt doc o.

(** At the end of input: outside all markup, the single root closed. *)
Definition accepting (st : State) : bool :=
  match mode st with
  | MText _ => negb (inside st) && root_done st
  | _ => false
  end.

(** The document, as code points, is well-formed. *)
Definition well_formed (doc : list Z) : bool :=
  match run (Some initial) doc with
  | Some st => accepting st
  | None => false
  end.

Definition is_high_surrogate (c : Z) : bool := in_range 55296 56319 c.
Definition is_low_surrogate (c : Z) : bool := in_range 56320 57343 c.

(** The code points of a UTF-16 string; [None] on an unpaired surrogate. *)
Fixpoint code_points (s : jsstring) : option (list Z) :=
  match s with
  | [] => Some []
  | c :: rest =>
      if is_high_surrogate c then
        match rest with
        | lo :: rest' =>
            if is_low_surrogate lo then
              option_map (cons (65536 + (c - 55296) * 1024 + (lo - 56320)))
                         (code_points rest')
            else None
        | [] => None
        end
      else if is_low_surrogate c then None
      else option_map (cons c) (code_points rest)
  end.

(** A JavaScript string is a well-formed XML document. *)
Definition well_formed_string (s : jsstring) : bool :=
  match code_points s with
  | Some doc => well_formed doc
  | None => false
  end.

End XML.

(** ** The vocabulary of the specification *)

(** [sub] occurs in [s]. *)
Definition contains (s sub : jsstring) : Prop :=
  exists before after, s = before ++ sub ++ after.

Definition lower_ascii (c : code_unit) : code_unit :=
  if (65 <=? c) && (c <=? 90) then c + 32 else c.

(** The file name ends in [.esql], in any mix of cases. *)
Definition has_esql_suffix (f : jsstring) : bool :=
  (5 <=? List.length f)%nat
  && jsstring_eqb (map lower_ascii (skipn (List.length f - 5) f)) (lit ".esql").

(** The converted file name in the specification's words: the trailing
    suffix replaced by [.xsd], or the name unchanged when it has none. *)
Definition convertedFileName_spec (f : jsstring) : jsstring :=
  if has_esql_suffix f
  then firstn (List.length f - 5) f ++ lit ".xsd"
  else f.

Fixpoint no_double_hyphen (l : list Z) : bool :=
  match l with
  | a :: (b :: _) as rest =>
      negb ((a =? 45) && (b =? 45)) && no_double_hyphen rest
  | _ => true
  end.

(** A text that can stand between spaces inside an XML comment: properly
    paired UTF-16, XML characters only, no two hyphens in a row. *)
Definition comment_safe (f : jsstring) : bool :=
  match XML.code_points f with
  | Some cps => forallb XML.is_char cps && no_double_hyphen cps
  | None => false
  end.

(** The recogniser inside a comment, [dashes] hyphens after the last other
    character. *)
Definition in_comment (dashes : nat) (open : list XML.name) (done : bool)
  : XML.State :=
  XML.mkState (XML.MComment dashes) open done false.

(** Below the surrogates a code unit is its own code point. *)
Definition below_surrogates (s : jsstring) : bool :=
  forallb (fun c => c <? 55296) s.

(** The two comments the template embeds. *)
Definition file_comment (f : jsstring) : jsstring :=
  lit "<!-- Generated from ESQL file: " ++ f ++ lit " -->".

Definition date_comment (now : Z) : jsstring :=
  lit "<!-- Generated on: " ++ toISOString now ++ lit " -->".

(** *** Reading a time stamp back *)

(** The day number, counted from 1970-01-01, of a date of the proleptic
    Gregorian calendar. *)
Definition days_from_civil (y m d : Z) : Z :=
  let y' := if m <=? 2 then y - 1 else y in
  let era := y' / 400 in
  let yoe := y' - era * 400 in
  let mp := if 2 <? m then m - 3 else m + 9 in
  let doy := (153 * mp + 2) / 5 + d - 1 in
  let doe := yoe * 365 + yoe / 4 - yoe / 100 + doy in
  era * 146097 + doe - 719468.

Definition digit_value (c : code_unit) : option Z :=
  if (48 <=? c) && (c <=? 57) then Some (c - 48) else None.

(** Exactly [k] decimal digits at the head of [s]: the number they continue
    [acc] to, and what follows them. *)
Fixpoint take_digits (k : nat) (acc : Z) (s : jsstring) : option (Z * jsstring) :=
  match k with
  | O => Some (acc, s)
  | S k' =>
      match s with
      | c :: rest =>
          match digit_value c with
          | Some d => take_digits k' (10 * acc + d) rest
          | None => None
          end
      | [] => None
      end
  end.

Definition take_char (c : code_unit) (s : jsstring) : option jsstring :=
  match s with
  | x :: rest => if x =? c then Some rest else None
  | [] => None
  end.

(** A year: four digits, or a sign and six digits (minus zero excluded). *)
Definition take_year (s : jsstring) : option (Z * jsstring) :=
  match s with
  | c :: rest =>
      if c =? 43 then take_digits 6 0 rest
      else if c =? 45 then
        match take_digits 6 0 rest with
        | Some (y, r) => if y =? 0 then None else Some (- y, r)
        | None => None
        end
      else take_digits 4 0 s
  | [] => None
  end.

Definition obind {A B} (o : option A) (k : A -> option B) : option B :=
  match o with
  | Some a => k a
  | None => None
  end.

(** The time value, in milliseconds since the epoch, that a text in the
    ECMAScript date-time format with all its fields and the [Z] of UTC
    denotes; [None] for any other text. *)
Definition parse_timestamp (s : jsstring) : option Z :=
  obind (take_year s) (fun '(y, s) =>
  obind (take_char 45 s) (fun s =>
  obind (take_digits 2 0 s) (fun '(m, s) =>
  obind (take_char 45 s) (fun s =>
  obind (take_digits 2 0 s) (fun '(d, s) =>
  obind (take_char 84 s) (fun s =>
  obind (take_digits 2 0 s) (fun '(hh, s) =>
  obind (take_char 58 s) (fun s =>
  obind (take_digits 2 0 s) (fun '(mm, s) =>
  obind (take_char 58 s) (fun s =>
  obind (take_digits 2 0 s) (fun '(ss, s) =>
  obind (take_char 46 s) (fun s =>
  obind (take_digits 3 0 s) (fun '(ms, s) =>
  obind (take_char 90 s) (fun s =>
  match s with
  | [] =>
      if (1 <=? m) && (m <=? 12) && (1 <=? d) && (d <=? 31)
         && (hh <=? 23) && (mm <=? 59) && (ss <=? 59)
      then Some (days_from_civil y m d * msPerDay
                 + hh * 3600000 + mm * 60000 + ss * 1000 + ms)
      else None
  | _ => None
  end)))))))))))))).

(** The time values of ECMAScript: a hundred million days either side of
    the epoch.  Every reading of the clock is one. *)
Definition time_value_max : Z := 8640000000000000.

Definition is_time_value (t : Z) : Prop :=
  - time_value_max <= t <= time_value_max.

(** The comment that carries a time stamp. *)
Definition stamp_comment (stamp : jsstring) : jsstring :=
  lit "<!-- Generated on: " ++ stamp ++ lit " -->".


(** The two response shapes. *)
Definition success_fields : list jsstring :=
  map lit ["success"; "originalFileName"; "convertedFileName"; "xsdContent";
           "esqlContentLength"; "xsdContentLength"; "conversionDate";
           "conversionType"].

Definition error_fields : list jsstring := map lit ["success"; "error"].

Definition fields_of (v : JsVal) : list jsstring :=
  match v with
  | JObj ps => map fst ps
  | _ => []
  end.

(** Properties that [JSON.stringify] keeps: those that are not [undefined]. *)
Definition defined (v : JsVal) : bool :=
  match v with JUndefined => false | _ => true end.

Definition all_defined (v : JsVal) : bool :=
  match v with
  | JObj ps => forallb (fun p => defined (snd p)) ps
  | _ => false
  end.

Definition error_response (code : Z) (msg : jsstring) : Response :=
  mkResponse code (JObj [(lit "success", JBool false); (lit "error", JStr msg)]).

(** The success payload for string content and a string file name. *)
Definition success_response (esqlContent fileName : jsstring) (now1 now2 : Z)
  : Response :=
  mkResponse 200 (JObj [
    (lit "success", JBool true);
    (lit "originalFileName", JStr fileName);
    (lit "convertedFileName", JStr (replace_esql fileName));
    (lit "xsdContent", JStr (render fileName now1));
    (lit "esqlContentLength", Number_of_nat (List.length esqlContent));
    (lit "xsdContentLength", Number_of_nat (List.length (render fileName now1)));
    (lit "conversionDate", JStr (toISOString now2));
    (lit "conversionType", JStr (lit "ESQL_TO_XSD")) ]).

(** A parsed object without the property [k]. *)
Definition without (k : string) (ps : list (jsstring * JsVal))
  : list (jsstring * JsVal) :=
  filter (fun p => negb (jsstring_eqb (fst p) (lit k))) ps.

(** Requests by transport. *)
Definition json_request (ps : list (jsstring * JsVal)) : Request :=
  mkRequest None (JObj ps).

Definition text_request (text : jsstring) : Request :=
  mkRequest None (JStr text).

Definition upload_request (f : UploadedFile) : Request :=
  mkRequest (Some [(lit "file", OneFile f)]) (JObj []).

(** The JSON body of the specification's empty-content scenario. *)
Definition empty_content_request : Request :=
  json_request [(lit "content", JStr (lit "")); (lit "filename", JStr (lit "x.esql"))].

(** A JSON body whose [content] is not a string. *)
Definition boolean_content_request : Request :=
  json_request [(lit "content", JBool true)].

(** A text body of one space. *)
Definition space_request : Request := text_request (lit " ").

(** A JSON body whose file name has two hyphens in a row. *)
Definition hyphens_request : Request :=
  json_request [(lit "content", JStr (lit "CREATE COMPUTE MODULE Test"));
                (lit "filename", JStr (lit "a--b.esql"))].

(** A JSON body with an empty [content], an empty [filename] and a filled
    [esqlContent]. *)
Definition fallback_body : list (jsstring * JsVal) :=
  [(lit "content", JStr (lit ""));
   (lit "esqlContent", JStr (lit "CREATE COMPUTE MODULE Test"));
   (lit "filename", JStr (lit ""))].

(** The upload of the specification's scenario. *)
Definition sample_upload : Request :=
  upload_request
    (mkFile (lit "sample.esql")
            (lit "CREATE COMPUTE MODULE Test" ++ [LF] ++ lit "END MODULE;")).

(** ** The multer listing *)

(** The second listing of [Node.js]: uploads go through [multer], the
    template is a stub, the handler has no guard of its own and reads
    [content] only, and the success payload is shorter. *)
Module Multer.

Definition template_head : jsstring := join_lines (map litq [
    "<?xml version='1.0' encoding='UTF-8'?>";
    "<xs:schema xmlns:xs='http://www.w3.org/2001/XMLSchema'";
    "           targetNamespace='http://esql.conversion.schema'";
    "           xmlns:tns='http://esql.conversion.schema'";
    "           elementFormDefault='qualified'>";
    "    ";
    "    <!-- Generated from ESQL file: " ]).

Definition template_mid : jsstring := join_lines (map litq [
    " -->";
    "    <!-- Generated on: " ]).

Definition template_tail : jsstring := join_lines (map litq [
    " -->";
    "    ";
    "    <xs:element name='TransformedMessage' type='tns:TransformedMessageType'/>";
    "    <!-- Add the rest of your XSD generation logic -->";
    "    ";
    "</xs:schema>" ]).

Definition render (fileNameText : jsstring) (now : Z) : jsstring :=
  template_head ++ fileNameText ++ template_mid ++ toISOString now ++ template_tail.

(** [convertESQLToXSD(esqlCode, originalFileName)] of this listing. *)
Definition convertESQLToXSD (esqlCode originalFileName : JsVal) (now : Z)
  : Completion jsstring :=
  if negb (ToBoolean esqlCode) then Throw (Error "ESQL content is empty") else
  trimmed <- call_trim esqlCode ;;
  if jsstring_eqb trimmed [] then Throw (Error "ESQL content is empty") else
  let lines :=
    match esqlCode with
    | JStr s => filter (fun line => 0 <? Z.of_nat (List.length line))
                       (map trim (split LF s))
    | _ => []
    end in
  nameText <- ToString originalFileName ;;
  let xsdContent := render nameText now in
  Normal xsdContent.

(** [req.file] as [upload.single('file')] with memory storage leaves it. *)
Record File := mkFile { originalname : jsstring; buffer : Buffer }.

Record Request := mkRequest { file : option File; body : JsVal }.

(** The [let]s and the [if] / [else if] that fills them; nothing here can
    throw. *)
Definition extract (req : Request) : JsVal * JsVal :=
  let esqlContent := JStr (lit "") in
  let fileName := JStr (lit "unknown.esql") in
  match file req with
  | Some f =>
      (JStr (Buffer_toString_utf8 (buffer f)), JStr (originalname f))
  | None =>
      if ToBoolean (body req) then
        let esqlContent :=
          if typeof_string (body req) then body req
          else Get (body req) "content" in
        let fileName := js_or (Get (body req) "filename") (JStr (lit "input.esql")) in
        (esqlContent, fileName)
      else (esqlContent, fileName)
  end.

(** The body of the [try] block. *)
Definition convert_try (req : Request) (now1 now2 : Z) : Completion Response :=
  let '(esqlContent, fileName) := extract req in
  xsdContent <- convertESQLToXSD esqlContent fileName now1 ;;
  outputFileName <- fileName_replace fileName ;;
  Normal (mkResponse 200 (JObj [
    (lit "success", JBool true);
    (lit "originalFileName", fileName);
    (lit "convertedFileName", JStr outputFileName);
    (lit "xsdContent", JStr xsdContent);
    (lit "conversionDate", JStr (toISOString now2)) ])).

(** The handler of [POST /api/convert]. *)
Definition post_api_convert (req : Request) (now1 now2 : Z) : Completion Response :=
  try_catch (convert_try req now1 now2) (fun error =>
    Normal (mkResponse 400 (JObj [
      (lit "success", JBool false);
      (lit "error", JStr (message error)) ]))).

Definition json_request (ps : list (jsstring * JsVal)) : Request :=
  mkRequest None (JObj ps).

Definition success_fields : list jsstring :=
  map lit ["success"; "originalFileName"; "convertedFileName"; "xsdContent";
           "conversionDate"].

End Multer.

(** ** The customer-and-order listing *)

(** The third listing of [Node.js]: the handler of the first listing word
    for word, a longer template, no [lines] in [convertESQLToXSD], and the
    error-handling middleware registered after the routes. *)
Module Customer.

Definition template_head : jsstring := join_lines (map litq [
    "<?xml version='1.0' encoding='UTF-8'?>";
    "<xs:schema xmlns:xs='http://www.w3.org/2001/XMLSchema'";
    "           targetNamespace='http://esql.conversion.schema'";
    "           xmlns:tns='http://esql.conversion.schema'";
    "           elementFormDefault='qualified'";
    "           attributeFormDefault='unqualified'>";
    "    ";
    "    <!-- Generated from ESQL file: " ]).

Definition template_mid : jsstring := join_lines (map litq [
    " -->";
    "    <!-- Generated on: " ]).

Definition template_tail : jsstring := join_lines (map litq [
    " -->";
    "    ";
    "    <!-- Root element definition -->";
    "    <xs:element name='TransformedMessage' type='tns:TransformedMessageType'/>";
    "    ";
    "    <!-- Main complex type for transformed message -->";
    "    <xs:complexType name='TransformedMessageType'>";
    "        <xs:sequence>";
    "            <xs:element name='Header' type='tns:HeaderType' minOccurs='0'/>";
    "            <xs:element name='Body' type='tns:BodyType' minOccurs='0'/>";
    "            <xs:element name='ProcessingInfo' type='tns:ProcessingInfoType' minOccurs='0'/>";
    "        </xs:sequence>";
    "    </xs:complexType>";
    "    ";
    "    <!-- Header type definition -->";
    "    <xs:complexType name='HeaderType'>";
    "        <xs:sequence>";
    "            <xs:element name='MessageID' type='xs:string' minOccurs='0'/>";
    "            <xs:element name='Timestamp' type='xs:dateTime' minOccurs='0'/>";
    "            <xs:element name='Source' type='xs:string' minOccurs='0'/>";
    "            <xs:element name='Destination' type='xs:string' minOccurs='0'/>";
    "        </xs:sequence>";
    "    </xs:complexType>";
    "    ";
    "    <!-- Processing info type -->";
    "    <xs:complexType name='ProcessingInfoType'>";
    "        <xs:sequence>";
    "            <xs:element name='Timestamp' type='xs:dateTime' minOccurs='0'/>";
    "            <xs:element name='ProcessedBy' type='xs:string' minOccurs='0'/>";
    "            <xs:element name='Status' type='tns:ProcessingStatusType' minOccurs='0'/>";
    "        </xs:sequence>";
    "    </xs:complexType>";
    "    ";
    "    <!-- Processing status enumeration -->";
    "    <xs:simpleType name='ProcessingStatusType'>";
    "        <xs:restriction base='xs:string'>";
    "            <xs:enumeration value='SUCCESS'/>";
    "            <xs:enumeration value='PROCESSING'/>";
    "            <xs:enumeration value='ERROR'/>";
    "            <xs:enumeration value='COMPLETED'/>";
    "        </xs:restriction>";
    "    </xs:simpleType>";
    "";
    "    <!-- Body type definition -->";
    "    <xs:complexType name='BodyType'>";
    "        <xs:sequence>";
    "            <xs:element name='ProcessingResult' type='xs:string' minOccurs='0'/>";
    "            <xs:element name='ProcessedElements' type='xs:integer' minOccurs='0'/>";
    "            <xs:element name='CustomerInfo' type='tns:CustomerInfoType' minOccurs='0'/>";
    "            <xs:element name='OrderDetails' type='tns:OrderDetailsType' minOccurs='0'/>";
    "        </xs:sequence>";
    "    </xs:complexType>";
    "    ";
    "    <!-- Customer info type -->";
    "    <xs:complexType name='CustomerInfoType'>";
    "        <xs:sequence>";
    "            <xs:element name='ID' type='xs:string' minOccurs='0'/>";
    "            <xs:element name='Name' type='xs:string' minOccurs='0'/>";
    "            <xs:element name='Email' type='xs:string' minOccurs='0'/>";
    "            <xs:element name='Phone' type='xs:string' minOccurs='0'/>";
    "        </xs:sequence>";
    "    </xs:complexType>";
    "    ";
    "    <!-- Order details type -->";
    "    <xs:complexType name='OrderDetailsType'>";
    "        <xs:sequence>";
    "            <xs:element name='OrderNumber' type='xs:string' minOccurs='0'/>";
    "            <xs:element name='OrderDate' type='xs:date' minOccurs='0'/>";
    "            <xs:element name='TotalAmount' type='xs:decimal' minOccurs='0'/>";
    "            <xs:element name='Status' type='xs:string' minOccurs='0'/>";
    "        </xs:sequence>";
    "    </xs:complexType>";
    "";
    "</xs:schema>" ]).

Definition render (fileNameText : jsstring) (now : Z) : jsstring :=
  template_head ++ fileNameText ++ template_mid ++ toISOString now ++ template_tail.

(** [convertESQLToXSD(esqlCode, originalFileName)] of this listing. *)
Definition convertESQLToXSD (esqlCode originalFileName : JsVal) (now : Z)
  : Completion jsstring :=
  if negb (ToBoolean esqlCode) then Throw (Error "ESQL content is empty") else
  trimmed <- call_trim esqlCode ;;
  if jsstring_eqb trimmed [] then Throw (Error "ESQL content is empty") else
  nameText <- ToString originalFileName ;;
  let xsdContent := render nameText now in
  Normal xsdContent.

(** The body of the [try] block. *)
Definition convert_try (req : Request) (now1 now2 : Z) : Completion Response :=
  ef <- extract req ;;
  let '(esqlContent, fileName) := ef in
  if negb (ToBoolean esqlContent) then Throw (Error "No ESQL content provided") else
  xsdContent <- convertESQLToXSD esqlContent fileName now1 ;;
  outputFileName <- fileName_replace fileName ;;
  Normal (mkResponse 200 (JObj [
    (lit "success", JBool true);
    (lit "originalFileName", fileName);
    (lit "convertedFileName", JStr outputFileName);
    (lit "xsdContent", JStr xsdContent);
    (lit "esqlContentLength", js_length esqlContent);
    (lit "xsdContentLength", js_length (JStr xsdContent));
    (lit "conversionDate", JStr (toISOString now2));
    (lit "conversionType", JStr (lit "ESQL_TO_XSD")) ])).

(** The handler of [POST /api/convert]. *)
Definition post_api_convert (req : Request) (now1 now2 : Z) : Completion Response :=
  try_catch (convert_try req now1 now2) (fun error =>
    Normal (mkResponse 400 (JObj [
      (lit "success", JBool false);
      (lit "error", JStr (message error)) ]))).

(** [POST /api/convert] of this listing as the client sees it: the
    middleware in front, the handler, and the error-handling middleware
    registered after the routes, which takes the errors of both. *)
Definition api_convert (inbound : Inbound) (now1 now2 : Z) : Reply :=
  match inbound with
  | Rejected err => JsonReply (errorMiddleware (thrown err))
  | Accepted req =>
      JsonReply (dispatch (post_api_convert req now1 now2) errorMiddleware)
  end.

End Customer.

(** ** Further vocabulary *)

(** Every code unit is JavaScript white space. *)
Definition all_whitespace (s : jsstring) : bool := forallb is_js_whitespace s.

(** Every byte is an ASCII character. *)
Definition ascii_bytes (data : Buffer) : bool :=
  forallb (fun b => (0 <=? b) && (b <=? 127)) data.

(** The messages an error response of the first listing can carry. *)
Definition handler_messages : list jsstring :=
  map lit ["No ESQL content provided";
           "ESQL content is empty";
           "esqlCode.trim is not a function";
           "fileName.replace is not a function";
           "Cannot convert object to primitive value";
           "Cannot read properties of undefined (reading 'toString')"].

(** What [ToString] throws on an object it cannot convert. *)
Definition primitive_error : Exn :=
  TypeError "Cannot convert object to primitive value".

(** The number of UTF-16 code units a list of code points takes. *)
Definition units (cps : list Z) : nat := List.length (flat_map utf16_encode cps).

(** A response without its [xsdContent] and [xsdContentLength]. *)
Definition without_xsd (res : Response) : Response :=
  mkResponse (status res)
    match json res with
    | JObj ps => JObj (without "xsdContentLength" (without "xsdContent" ps))
    | v => v
    end.

(** A value that is not a string. *)
Definition not_string (v : JsVal) : bool := negb (typeof_string v).

(** The last instant of the year 9999, in milliseconds since the epoch. *)
Definition end_of_9999 : Z := 253402300799999.

(** A form that sends the [file] field twice. *)
Definition repeated_file_request : Request :=
  mkRequest (Some [(lit "file",
                    ManyFiles [mkFile (lit "a.esql") (lit "A");
                               mkFile (lit "b.esql") (lit "B")])])
            (JObj []).

(** A JSON body whose file name is a number. *)
Definition numeric_name_body : list (jsstring * JsVal) :=
  [(lit "content", JStr (lit "CREATE COMPUTE MODULE Test"));
   (lit "filename", JNum (lit "42"))].

(** A JSON body with both content fields filled. *)
Definition both_contents_body : list (jsstring * JsVal) :=
  [(lit "content", JStr (lit "CREATE COMPUTE MODULE A"));
   (lit "esqlContent", JStr (lit "CREATE COMPUTE MODULE B"))].

(** * Properties *)

(** ** The runtime model on known values *)

Example toISOString_epoch : toISOString 0 = lit "1970-01-01T00:00:00.000Z".
Proof. reflexivity. Qed.

Example toISOString_2023 :
  toISOString 1700000000000 = lit "2023-11-14T22:13:20.000Z".
Proof. reflexivity. Qed.

Example toISOString_leap_day :
  toISOString 1709251199999 = lit "2024-02-29T23:59:59.999Z".
Proof. reflexivity. Qed.

Example toISOString_before_epoch :
  toISOString (-1) = lit "1969-12-31T23:59:59.999Z".
Proof. reflexivity. Qed.

Example toISOString_wide_year :
  toISOString 253402300800000 = lit "+010000-01-01T00:00:00.000Z".
Proof. reflexivity. Qed.

Example trim_both_ends : trim (lit "  a b " ++ [LF; 160]) = lit "a b".
Proof. reflexivity. Qed.

Example split_lines :
  split LF (lit "a" ++ [LF] ++ lit "b" ++ [LF]) = [lit "a"; lit "b"; []].
Proof. reflexivity. Qed.

Example replace_mixed_case : replace_esql (lit "Flow.EsQl") = lit "Flow.xsd".
Proof. reflexivity. Qed.

Example replace_only_at_end :
  replace_esql (lit "a.esql.txt") = lit "a.esql.txt"
  /\ replace_esql (lit "a.esql.esql") = lit "a.esql.xsd".
Proof. split; reflexivity. Qed.

(** Two-, three- and four-byte sequences, and a stray continuation byte. *)
Example utf8_sequences :
  Buffer_toString_utf8 [65; 195; 169; 226; 130; 172; 240; 159; 152; 128; 128]
  = [65; 233; 8364; 55357; 56832; 65533].
Proof. reflexivity. Qed.

Example ToString_array :
  ToString (JArr [JNum (lit "1"); JNull; JArr [JStr (lit "a"); JBool true]; JObj []])
  = Normal (lit "1,,a,true,[object Object]").
Proof. reflexivity. Qed.

Example render_length : List.length (render [] 0) = 2453%nat.
Proof. reflexivity. Qed.

Example well_formed_accepts :
  forallb (fun d => XML.well_formed_string (litq d))
    ["<a/>"; "<a></a >"; "<?xml version='1.0'?><a/>";
     "<?xml version = '1.1' encoding='utf-8' standalone='no' ?><!-- c - d --><a b='1' c = '>'>t &amp; &#65;&#x41; ]] > <![CDATA[ <x> ]] ]]]><b:c/><?pi d ?></a> <?q?>";
     "<!----><a>></a>"]
  = true.
Proof. reflexivity. Qed.

Example well_formed_rejects :
  existsb (fun d => XML.well_formed_string (litq d))
    [""; "<a>"; "<a></b>"; "<a><b></a></b>"; "<a/><b/>"; "t<a/>"; "<a/>t";
     " <?xml version='1.0'?><a/>"; "<?xml encoding='UTF-8'?><a/>";
     "<a><?xml version='1.0'?></a>"; "<a b='1' b='2'/>"; "<a b='1'c='2'/>";
     "<a b=1/>"; "<a b='<'/>"; "<a>&nbsp;</a>"; "<a>&amp</a>"; "<a>&#0;</a>";
     "<a>]]></a>"; "<!-- a -- b --><a/>"; "<!-- a ---><a/>"; "<a><!-- x </a>";
     "<a><?p??></a>"; "<1a/>"; "< a/>"; "<![CDATA[x]]><a/>"]
  = false.
Proof. reflexivity. Qed.

Example comment_safe_names :
  comment_safe (lit "sample.esql") = true
  /\ comment_safe (lit "a-b - c.esql") = true
  /\ comment_safe (lit "a--b.esql") = false
  /\ comment_safe [55357] = false.
Proof. repeat split. Qed.

(** ** Basic facts *)

Lemma jsstring_eqb_eq (a b : jsstring) : jsstring_eqb a b = true <-> a = b.
Proof.
  unfold jsstring_eqb. destruct (list_eq_dec Z.eq_dec a b); split; congruence.
Qed.

Lemma jsstring_eqb_neq (a b : jsstring) : jsstring_eqb a b = false <-> a <> b.
Proof.
  unfold jsstring_eqb. destruct (list_eq_dec Z.eq_dec a b); split; congruence.
Qed.

Lemma ToBoolean_string (s : jsstring) : ToBoolean (JStr s) = true <-> s <> [].
Proof. destruct s; simpl; split; congruence. Qed.

(** A string with something left after trimming is not empty. *)
Lemma trim_nonempty (s : jsstring) : trim s <> [] -> s <> [].
Proof. intros H ->. now apply H. Qed.

(** What [convertESQLToXSD] does on strings: blank content throws, any other
    content renders the template. *)
Lemma convertESQLToXSD_string (c f : jsstring) (now : Z) :
  convertESQLToXSD (JStr c) (JStr f) now =
  if jsstring_eqb (trim c) [] then Throw (Error "ESQL content is empty")
  else Normal (render f now).
Proof.
  unfold convertESQLToXSD. destruct c as [|x c].
  - reflexivity.
  - cbn [ToBoolean negb call_trim bind].
    destruct (jsstring_eqb (trim (x :: c)) []); reflexivity.
Qed.

(** With non-blank content the result is decided by the file name and the
    clock alone. *)
Lemma convertESQLToXSD_nonblank (c : jsstring) (fileName : JsVal) (now : Z) :
  trim c <> [] ->
  convertESQLToXSD (JStr c) fileName now =
  nameText <- ToString fileName ;; Normal (render nameText now).
Proof.
  intros Hc. unfold convertESQLToXSD.
  destruct c as [|x c]; [now elim Hc|].
  cbn [ToBoolean negb call_trim bind].
  apply jsstring_eqb_neq in Hc. now rewrite Hc.
Qed.

(** The handler never lets an exception out. *)
Lemma post_api_convert_catches (req : Request) (now1 now2 : Z) :
  post_api_convert req now1 now2 =
  match convert_try req now1 now2 with
  | Normal res => Normal res
  | Throw error => Normal (error_response 400 (message error))
  end.
Proof. reflexivity. Qed.

Lemma convertESQLToXSD_blank (s : jsstring) (fileName : JsVal) (now : Z) :
  trim s = [] ->
  convertESQLToXSD (JStr s) fileName now = Throw (Error "ESQL content is empty").
Proof.
  intros H. unfold convertESQLToXSD.
  destruct s as [|x s]; [reflexivity|].
  cbn [ToBoolean negb call_trim bind]. rewrite H. reflexivity.
Qed.

(** ** The two outcomes of the handler *)

(** String content that is not blank, with a string file name, succeeds. *)
Lemma convert_try_success (req : Request) (now1 now2 : Z) (c f : jsstring) :
  extract req = Normal (JStr c, JStr f) ->
  trim c <> [] ->
  convert_try req now1 now2 = Normal (success_response c f now1 now2).
Proof.
  intros Hx Hc. unfold convert_try. rewrite Hx. cbn [bind].
  pose proof (trim_nonempty c Hc) as Hne. apply ToBoolean_string in Hne.
  rewrite Hne. cbn [negb].
  rewrite convertESQLToXSD_nonblank by assumption. reflexivity.
Qed.

(** Nothing else does. *)
Lemma convert_try_inv (req : Request) (now1 now2 : Z) (res : Response) :
  convert_try req now1 now2 = Normal res ->
  exists c f, extract req = Normal (JStr c, JStr f) /\ trim c <> []
              /\ res = success_response c f now1 now2.
Proof.
  unfold convert_try. destruct (extract req) as [[c0 fn]|e]; cbn [bind];
    [|discriminate].
  destruct (ToBoolean c0) eqn:Hb; cbn [negb]; [|discriminate].
  destruct c0 as [| |b|t|c|es|ps];
    try (unfold convertESQLToXSD; rewrite Hb; cbn; discriminate).
  destruct (list_eq_dec Z.eq_dec (trim c) []) as [Hc|Hc].
  - rewrite convertESQLToXSD_blank by assumption. discriminate.
  - rewrite convertESQLToXSD_nonblank by assumption.
    destruct fn as [| |b|t|f|es|ps];
      try (destruct (ToString _); cbn; discriminate).
    cbn. intros [= <-]. exists c, f. repeat split; assumption.
Qed.

(** Every request is answered, with the success payload or with a 400. *)
Lemma post_api_convert_cases (req : Request) (now1 now2 : Z) :
  (exists c f, extract req = Normal (JStr c, JStr f) /\ trim c <> []
     /\ post_api_convert req now1 now2 = Normal (success_response c f now1 now2))
  \/ (exists error, convert_try req now1 now2 = Throw error
     /\ post_api_convert req now1 now2 = Normal (error_response 400 (message error))).
Proof.
  rewrite post_api_convert_catches.
  destruct (convert_try req now1 now2) as [res|error] eqn:E.
  - left. apply convert_try_inv in E as (c & f & Hx & Hc & ->). now exists c, f.
  - right. now exists error.
Qed.

(** A response with status 200 is the success payload. *)
Lemma post_api_convert_200 (req : Request) (now1 now2 : Z) (res : Response) :
  post_api_convert req now1 now2 = Normal res ->
  status res = 200 ->
  exists c f, extract req = Normal (JStr c, JStr f) /\ trim c <> []
              /\ res = success_response c f now1 now2.
Proof.
  intros H Hs.
  destruct (post_api_convert_cases req now1 now2)
    as [(c & f & Hx & Hc & E)|(error & _ & E)]; rewrite E in H; injection H as <-.
  - now exists c, f.
  - discriminate.
Qed.

(** ** C1 *)

(** C1. For any two content strings that are neither empty nor only
    whitespace, [convertESQLToXSD] called with the same file name at the same
    clock reading gives the same outcome, and for a file-name string that
    outcome is the rendered template, in which the content does not occur. *)
Theorem convertESQLToXSD_content_independent
  (c1 c2 : jsstring) (fileName : JsVal) (f : jsstring) (now : Z) :
  c1 <> [] -> trim c1 <> [] -> c2 <> [] -> trim c2 <> [] ->
  convertESQLToXSD (JStr c1) fileName now = convertESQLToXSD (JStr c2) fileName now
  /\ convertESQLToXSD (JStr c1) (JStr f) now = Normal (render f now)
  /\ convertESQLToXSD (JStr c2) (JStr f) now = Normal (render f now).
Proof.
  intros _ H1 _ H2.
  rewrite !convertESQLToXSD_nonblank by assumption.
  repeat split; reflexivity.
Qed.

Lemma convertESQLToXSD_content_independent_witness :
  convertESQLToXSD (JStr (lit "CREATE COMPUTE MODULE A")) (JStr (lit "x.esql")) 0
  = convertESQLToXSD (JStr (lit "SET OutputRoot = InputRoot;")) (JStr (lit "x.esql")) 0
  /\ convertESQLToXSD (JStr (lit "CREATE COMPUTE MODULE A")) (JStr (lit "x.esql")) 0
     = Normal (render (lit "x.esql") 0)
  /\ convertESQLToXSD (JStr (lit "SET OutputRoot = InputRoot;")) (JStr (lit "x.esql")) 0
     = Normal (render (lit "x.esql") 0).
Proof.
  apply (convertESQLToXSD_content_independent
           (lit "CREATE COMPUTE MODULE A") (lit "SET OutputRoot = InputRoot;")
           (JStr (lit "x.esql")) (lit "x.esql") 0);
    vm_compute; discriminate.
Defined.

(** ** C2 *)

(** C2, as stated, fails: for the JSON body with empty [content] and
    [filename] "x.esql" the response is not the one carrying
    "ESQL content is empty". *)
Lemma empty_content_message_counterexample :
  post_api_convert empty_content_request 0 0
  <> Normal (error_response 400 (lit "ESQL content is empty")).
Proof. vm_compute. discriminate. Qed.

(** C2, amended. The JSON body with empty [content] and [filename]
    "x.esql" is answered with status 400 and the body
    [{success: false, error: "No ESQL content provided"}]: the handler's own
    guard rejects the falsy content before [convertESQLToXSD] is called. *)
Theorem empty_content_rejected_by_handler_guard (now1 now2 : Z) :
  post_api_convert empty_content_request now1 now2
  = Normal (error_response 400 (lit "No ESQL content provided")).
Proof. reflexivity. Qed.

(** ** C3 *)

(** C3, as stated, fails: a JSON body whose [content] is [true] makes
    [esqlCode.trim()] throw a [TypeError], which is no validation error, and
    with the error-handling middleware in force the client still gets status
    400 with that error's message, not the generic 500. *)
Lemma unexpected_exception_counterexample :
  convert_try boolean_content_request 0 0
  = Throw (TypeError "esqlCode.trim is not a function")
  /\ dispatch (post_api_convert boolean_content_request 0 0) errorMiddleware
     = error_response 400 (lit "esqlCode.trim is not a function")
  /\ status (dispatch (post_api_convert boolean_content_request 0 0) errorMiddleware)
     <> 500.
Proof. vm_compute. repeat split; discriminate. Qed.

(** C3, amended. Whatever the [try] block of the handler throws, validation
    error or not, the handler's own [catch] answers it with status 400 and
    the exception's message; the handler passes no exception on, so whichever
    error-handling middleware is in force answers none of them, and the
    fixed 500 "Internal server error" of [errorMiddleware] is never the
    answer to an exception of the handler. *)
Theorem handler_exceptions_surface_as_400
  (req : Request) (now1 now2 : Z) (error : Exn) (onError : Exn -> Response) :
  convert_try req now1 now2 = Throw error ->
  dispatch (post_api_convert req now1 now2) onError
  = error_response 400 (message error)
  /\ dispatch (post_api_convert req now1 now2) errorMiddleware
     <> errorMiddleware error
  /\ errorMiddleware error = error_response 500 (lit "Internal server error").
Proof.
  intros H. rewrite post_api_convert_catches, H. cbn [dispatch].
  repeat split. discriminate.
Qed.

Lemma handler_exceptions_surface_as_400_witness :
  dispatch (post_api_convert boolean_content_request 0 0) errorMiddleware
  = error_response 400 (message (TypeError "esqlCode.trim is not a function"))
  /\ dispatch (post_api_convert boolean_content_request 0 0) errorMiddleware
     <> errorMiddleware (TypeError "esqlCode.trim is not a function")
  /\ errorMiddleware (TypeError "esqlCode.trim is not a function")
     = error_response 500 (lit "Internal server error").
Proof.
  apply (handler_exceptions_surface_as_400 boolean_content_request 0 0
           (TypeError "esqlCode.trim is not a function") errorMiddleware).
  reflexivity.
Defined.

(** ** C4 *)

(** C4. Whenever the content the handler extracts from a request, from an
    uploaded file, a JSON body or a text body alike, is a string that is
    empty or all whitespace, the response has status 400 and its [error]
    field is a non-empty string. *)
Theorem blank_content_is_rejected
  (req : Request) (now1 now2 : Z) (s : jsstring) (fileName : JsVal) :
  extract req = Normal (JStr s, fileName) ->
  trim s = [] ->
  exists msg, msg <> []
    /\ post_api_convert req now1 now2 = Normal (error_response 400 msg).
Proof.
  intros Hx Hs. rewrite post_api_convert_catches. unfold convert_try.
  rewrite Hx. cbn [bind]. destruct s as [|x s].
  - exists (lit "No ESQL content provided"). split; [discriminate|reflexivity].
  - cbn [ToBoolean negb]. rewrite convertESQLToXSD_blank by assumption.
    exists (lit "ESQL content is empty"). split; [discriminate|reflexivity].
Qed.

Lemma blank_content_is_rejected_witness :
  exists msg, msg <> []
    /\ post_api_convert (upload_request (mkFile (lit "blank.esql") (lit "  "))) 0 0
       = Normal (error_response 400 msg).
Proof.
  apply (blank_content_is_rejected
           (upload_request (mkFile (lit "blank.esql") (lit "  "))) 0 0
           (lit "  ") (JStr (lit "blank.esql"))); reflexivity.
Defined.

(** ** C5 *)

Lemma pat_matches_lower (p c : code_unit) :
  pat_matches p c = (lower_ascii c =? lower_ascii p).
Proof.
  unfold pat_matches, Canonicalize, lower_ascii.
  destruct (Z.leb_spec 97 c), (Z.leb_spec c 122), (Z.leb_spec 97 p),
    (Z.leb_spec p 122), (Z.leb_spec 65 c), (Z.leb_spec c 90),
    (Z.leb_spec 65 p), (Z.leb_spec p 90); cbn [andb];
    repeat match goal with |- context [?a =? ?b] => destruct (Z.eqb_spec a b) end;
    first [reflexivity | lia].
Qed.

Lemma match_here_length (pat : list code_unit) (s : jsstring) :
  match_here pat s = true -> List.length s = List.length pat.
Proof.
  revert s. induction pat as [|p pat IH]; intros [|c s] H; cbn in *;
    try discriminate; [reflexivity|].
  apply andb_prop in H as [_ H]. now rewrite (IH s H).
Qed.

(** Matching the pattern is spelling it, up to case. *)
Lemma match_here_lower (pat : list code_unit) (s : jsstring) :
  map lower_ascii pat = pat ->
  match_here pat s = jsstring_eqb (map lower_ascii s) pat.
Proof.
  revert s. induction pat as [|p pat IH]; intros [|c s] Hp; try reflexivity.
  cbn [map] in Hp. injection Hp as Hp1 Hp2.
  cbn [match_here map]. rewrite (IH s Hp2), pat_matches_lower, Hp1.
  destruct (Z.eqb_spec (lower_ascii c) p) as [->|Hne]; cbn [andb].
  - destruct (jsstring_eqb (map lower_ascii s) pat) eqn:E.
    + apply jsstring_eqb_eq in E. symmetry. apply jsstring_eqb_eq. now rewrite E.
    + apply jsstring_eqb_neq in E. symmetry. apply jsstring_eqb_neq. congruence.
  - symmetry. apply jsstring_eqb_neq. congruence.
Qed.

Lemma replace_esql_unfold (s : jsstring) :
  replace_esql s =
  if match_here esql_pattern s
  then lit ".xsd" ++ skipn (List.length esql_pattern) s
  else match s with
       | [] => []
       | c :: rest => c :: replace_esql rest
       end.
Proof. destruct s; reflexivity. Qed.

(** A match at the end is the leftmost one, and is replaced. *)
Lemma replace_esql_suffix (p e : jsstring) :
  match_here esql_pattern e = true ->
  replace_esql (p ++ e) = p ++ lit ".xsd".
Proof.
  intros He. pose proof (match_here_length _ _ He) as Hlen.
  induction p as [|c p IH].
  - cbn [app]. rewrite replace_esql_unfold, He.
    rewrite <- Hlen, skipn_all. now rewrite app_nil_r.
  - rewrite replace_esql_unfold.
    destruct (match_here esql_pattern ((c :: p) ++ e)) eqn:E.
    + apply match_here_length in E. cbn [app List.length] in E.
      rewrite length_app in E. lia.
    + cbn [app]. now rewrite IH.
Qed.

(** Without a match anywhere the string is returned as it is. *)
Lemma replace_esql_no_match (s : jsstring) :
  (forall k, match_here esql_pattern (skipn k s) = false) ->
  replace_esql s = s.
Proof.
  induction s as [|c s IH]; intros H; rewrite replace_esql_unfold.
  - reflexivity.
  - pose proof (H 0%nat) as H0. cbn [skipn] in H0. rewrite H0.
    f_equal. apply IH. intros k. exact (H (S k)).
Qed.

(** The replacement the handler calls computes the converted name of the
    specification. *)
Lemma replace_esql_spec (f : jsstring) :
  replace_esql f = convertedFileName_spec f.
Proof.
  unfold convertedFileName_spec, has_esql_suffix.
  destruct (Nat.leb_spec 5 (List.length f)) as [Hn|Hn]; cbn [andb].
  - rewrite <- (match_here_lower (lit ".esql")) by reflexivity.
    destruct (match_here (lit ".esql") (skipn (List.length f - 5) f)) eqn:E.
    + rewrite <- (firstn_skipn (List.length f - 5) f) at 1.
      now apply replace_esql_suffix.
    + apply replace_esql_no_match. intros k.
      destruct (match_here esql_pattern (skipn k f)) eqn:Ek; [|reflexivity].
      pose proof (match_here_length _ _ Ek) as Hl.
      rewrite length_skipn in Hl. cbn in Hl.
      replace k with (List.length f - 5)%nat in Ek by lia.
      unfold esql_pattern in Ek. congruence.
  - apply replace_esql_no_match. intros k.
    destruct (match_here esql_pattern (skipn k f)) eqn:Ek; [|reflexivity].
    apply match_here_length in Ek. rewrite length_skipn in Ek. cbn in Ek. lia.
Qed.

(** C5. For every file-name string the handler's
    [fileName.replace(/\.esql$/i, '.xsd')] returns the name with a trailing
    [.esql], in any mix of cases, replaced by [.xsd], and the name itself
    when it has no such suffix. *)
Theorem convertedFileName_replaces_suffix (f : jsstring) :
  fileName_replace (JStr f) = Normal (convertedFileName_spec f).
Proof. cbn [fileName_replace]. now rewrite replace_esql_spec. Qed.

(** The same, read off a successful response. *)
Lemma convertedFileName_in_response
  (req : Request) (now1 now2 : Z) (res : Response) :
  post_api_convert req now1 now2 = Normal res ->
  status res = 200 ->
  exists f,
    Get (json res) "originalFileName" = JStr f
    /\ Get (json res) "convertedFileName" = JStr (convertedFileName_spec f).
Proof.
  intros H Hs.
  destruct (post_api_convert_200 _ _ _ _ H Hs) as (c & f & _ & _ & ->).
  exists f. split; [reflexivity|]. cbn. now rewrite replace_esql_spec.
Qed.

(** ** C7 *)

Lemma render_contains_file_comment (f : jsstring) (now : Z) :
  contains (render f now) (file_comment f).
Proof.
  exists (firstn (List.length template_head - 31) template_head),
         (skipn 4 template_mid ++ toISOString now ++ template_tail).
  unfold render, file_comment.
  replace template_head
    with (firstn (List.length template_head - 31) template_head
          ++ lit "<!-- Generated from ESQL file: ") at 1
    by (vm_compute; reflexivity).
  replace template_mid with (lit " -->" ++ skipn 4 template_mid) at 1
    by (vm_compute; reflexivity).
  now rewrite <- !app_assoc.
Qed.

Lemma render_contains_date_comment (f : jsstring) (now : Z) :
  contains (render f now) (date_comment now).
Proof.
  exists (template_head ++ f ++ firstn (List.length template_mid - 19) template_mid),
         (skipn 4 template_tail).
  unfold render, date_comment.
  replace template_mid
    with (firstn (List.length template_mid - 19) template_mid
          ++ lit "<!-- Generated on: ") at 1
    by (vm_compute; reflexivity).
  replace template_tail with (lit " -->" ++ skipn 4 template_tail) at 1
    by (vm_compute; reflexivity).
  now rewrite <- !app_assoc.
Qed.

(** *** Time stamps read back *)

(** The calendar computation of [toISOString] is undone by
    [days_from_civil]. *)
Lemma civil_round_trip (z : Z) :
  let '(y, m, d) := civil_from_days z in
  1 <= m <= 12 /\ 1 <= d <= 31 /\ days_from_civil y m d = z
  /\ (- 100000000 <= z <= 100000000 -> - 300000 <= y <= 300000).
Proof.
  unfold civil_from_days, days_from_civil. cbv zeta.
  set (doe := (z + 719468) mod 146097).
  set (era := (z + 719468) / 146097).
  assert (Hdoe : 0 <= doe < 146097) by (apply Z.mod_pos_bound; lia).
  assert (Hz : z + 719468 = 146097 * era + doe) by (apply Z.div_mod; lia).
  set (yoe := (doe - doe / 1460 + doe / 36524 - doe / 146096) / 365).
  assert (Hyoe : 0 <= yoe <= 399) by (subst yoe; Z.div_mod_to_equations; lia).
  set (doy := doe - (365 * yoe + yoe / 4 - yoe / 100)).
  assert (Hdoy : 0 <= doy <= 365) by (subst doy yoe; Z.div_mod_to_equations; lia).
  set (mp := (5 * doy + 2) / 153).
  assert (Hmp : 0 <= mp <= 11) by (subst mp; Z.div_mod_to_equations; lia).
  set (d := doy - (153 * mp + 2) / 5 + 1).
  assert (Hd : 1 <= d <= 31) by (subst d mp; Z.div_mod_to_equations; lia).
  destruct (mp <? 10) eqn:E1.
  - assert (Hm2 : (mp + 3 <=? 2) = false) by lia. rewrite Hm2.
    assert (Hm3 : (2 <? mp + 3) = true) by lia. rewrite Hm3.
    split; [lia|]. split; [lia|]. split; [|lia].
    replace (mp + 3 - 3) with mp by lia.
    replace ((yoe + era * 400 + 0) / 400) with era by (Z.div_mod_to_equations; lia).
    subst d doy. Z.div_mod_to_equations; lia.
  - assert (Hm2 : (mp - 9 <=? 2) = true) by lia. rewrite Hm2.
    assert (Hm3 : (2 <? mp - 9) = false) by lia. rewrite Hm3.
    split; [lia|]. split; [lia|]. split; [|lia].
    replace (mp - 9 + 9) with mp by lia.
    replace ((yoe + era * 400 + 1 - 1) / 400) with era by (Z.div_mod_to_equations; lia).
    subst d doy. Z.div_mod_to_equations; lia.
Qed.

Lemma digit_value_digit (n : Z) : digit_value (48 + n mod 10) = Some (n mod 10).
Proof.
  unfold digit_value. pose proof (Z.mod_pos_bound n 10 ltac:(lia)).
  replace ((48 <=? 48 + n mod 10) && (48 + n mod 10 <=? 57)) with true by lia.
  f_equal. lia.
Qed.

Lemma take_digits_snoc (k : nat) :
  forall acc s,
    take_digits (S k) acc s
    = match take_digits k acc s with
      | Some (v, r) => take_digits 1 v r
      | None => None
      end.
Proof.
  induction k as [|k IH]; intros acc s; [reflexivity|].
  change (take_digits (S (S k)) acc s)
    with (match s with
          | c :: rest =>
              match digit_value c with
              | Some d => take_digits (S k) (10 * acc + d) rest
              | None => None
              end
          | [] => None
          end).
  destruct s as [|c rest]; [reflexivity|].
  cbn [take_digits]. destruct (digit_value c); [|reflexivity].
  apply (IH (10 * acc + z) rest).
Qed.

Lemma take_digits_pad (k : nat) :
  forall n acc rest,
    take_digits k acc (pad_digits k n ++ rest)
    = Some (acc * 10 ^ Z.of_nat k + n mod 10 ^ Z.of_nat k, rest).
Proof.
  induction k as [|k IH]; intros n acc rest.
  - cbn. rewrite Z.mod_1_r. do 2 f_equal. lia.
  - rewrite take_digits_snoc. cbn [pad_digits]. rewrite <- app_assoc.
    rewrite IH. cbn [app take_digits]. rewrite digit_value_digit.
    do 2 f_equal. rewrite Nat2Z.inj_succ, Z.pow_succ_r by lia.
    rewrite (Z.rem_mul_r n 10 (10 ^ Z.of_nat k)) by lia. lia.
Qed.

Lemma pad_digits_head (k : nat) :
  forall n, exists c r, pad_digits (S k) n = c :: r /\ 48 <= c <= 57.
Proof.
  induction k as [|k IH]; intros n.
  - exists (48 + n mod 10), []. split; [reflexivity|].
    pose proof (Z.mod_pos_bound n 10 ltac:(lia)). lia.
  - destruct (IH (n / 10)) as (c & r & E & Hc).
    exists c, (r ++ [48 + n mod 10]). split; [|exact Hc].
    change (pad_digits (S (S k)) n)
      with (pad_digits (S k) (n / 10) ++ [48 + n mod 10]).
    now rewrite E.
Qed.

Lemma take_year_text (y : Z) (rest : jsstring) :
  - 300000 <= y <= 300000 ->
  take_year (year_text y ++ rest) = Some (y, rest).
Proof.
  intros Hy. unfold year_text.
  destruct ((0 <=? y) && (y <=? 9999)) eqn:E.
  - pose proof (take_digits_pad 4 y 0 rest) as H.
    destruct (pad_digits_head 3 y) as (c & r & Ep & Hc).
    rewrite Ep in *. cbn [app] in *. unfold take_year.
    replace (c =? 43) with false by lia. replace (c =? 45) with false by lia.
    rewrite H. do 2 f_equal. change (10 ^ Z.of_nat 4) with 10000.
    rewrite Z.mod_small by lia. lia.
  - rewrite <- app_assoc. destruct (y <? 0) eqn:Es.
    + change (lit "-" ++ pad_digits 6 (Z.abs y) ++ rest)
        with (45 :: pad_digits 6 (Z.abs y) ++ rest).
      unfold take_year. change (45 =? 43) with false.
      change (45 =? 45) with true. cbv iota.
      rewrite take_digits_pad. change (10 ^ Z.of_nat 6) with 1000000.
      rewrite Z.mod_small by lia.
      replace (0 * 1000000 + Z.abs y =? 0) with false by lia.
      do 2 f_equal. lia.
    + change (lit "+" ++ pad_digits 6 (Z.abs y) ++ rest)
        with (43 :: pad_digits 6 (Z.abs y) ++ rest).
      unfold take_year. change (43 =? 43) with true. cbv iota.
      rewrite take_digits_pad. change (10 ^ Z.of_nat 6) with 1000000.
      rewrite Z.mod_small by lia. do 2 f_equal. lia.
Qed.

Lemma take_char_lit (c : code_unit) (rest : jsstring) :
  take_char c (c :: rest) = Some rest.
Proof. unfold take_char. now rewrite Z.eqb_refl. Qed.

Lemma lit_cons (a : ascii) (s : string) (rest : jsstring) :
  lit (String a s) ++ rest = Z.of_N (N_of_ascii a) :: (lit s ++ rest).
Proof. reflexivity. Qed.

(** What [toISOString] writes reads back as the time value it was given. *)
Lemma parse_timestamp_toISOString (t : Z) :
  is_time_value t -> parse_timestamp (toISOString t) = Some t.
Proof.
  unfold is_time_value, time_value_max. intros Ht.
  pose proof (civil_round_trip (t / msPerDay)) as Hc.
  unfold toISOString, parse_timestamp.
  destruct (civil_from_days (t / msPerDay)) as [[y m] d].
  destruct Hc as (Hm & Hd & Hz & Hy).
  assert (Hday : - 100000000 <= t / msPerDay <= 100000000)
    by (unfold msPerDay; Z.div_mod_to_equations; lia).
  specialize (Hy Hday).
  pose proof (Z.mod_pos_bound t msPerDay ltac:(unfold msPerDay; lia)) as Hms.
  pose proof (Z.div_mod t msPerDay ltac:(unfold msPerDay; lia)) as Ht'.
  set (ms := t mod msPerDay) in *.
  rewrite take_year_text by assumption. cbn [obind].
  change (lit "-") with [45]. change (lit "T") with [84].
  change (lit ":") with [58]. change (lit ".") with [46].
  change (lit "Z") with [90]. cbn [app].
  repeat (rewrite take_char_lit; cbn [obind];
          try (rewrite take_digits_pad; cbn [obind])).
  change (10 ^ Z.of_nat 2) with 100. change (10 ^ Z.of_nat 3) with 1000.
  unfold msPerDay in *.
  rewrite !(Z.mod_small m 100), !(Z.mod_small d 100) by lia.
  rewrite (Z.mod_small (ms / 3600000) 100) by (Z.div_mod_to_equations; lia).
  rewrite (Z.mod_small (ms / 60000 mod 60) 100) by (Z.div_mod_to_equations; lia).
  rewrite (Z.mod_small (ms / 1000 mod 60) 100) by (Z.div_mod_to_equations; lia).
  rewrite (Z.mod_small (ms mod 1000) 1000) by (Z.div_mod_to_equations; lia).
  replace ((1 <=? 0 * 100 + m) && (0 * 100 + m <=? 12) && (1 <=? 0 * 100 + d)
           && (0 * 100 + d <=? 31) && (0 * 100 + ms / 3600000 <=? 23)
           && (0 * 100 + ms / 60000 mod 60 <=? 59)
           && (0 * 100 + ms / 1000 mod 60 <=? 59)) with true
    by (symmetry; repeat (apply andb_true_intro; split);
        apply Z.leb_le; Z.div_mod_to_equations; lia).
  f_equal. replace (0 * 100 + m) with m by lia.
  replace (0 * 100 + d) with d by lia. rewrite Hz.
  Z.div_mod_to_equations; lia.
Qed.

(** C7. In every successful response, with original file name [f], the
    [xsdContent] contains the comment [<!-- Generated from ESQL file: f -->]
    and a comment [<!-- Generated on: ... -->] whose text is a UTC time
    stamp that reads back as the very clock reading [convertESQLToXSD] took;
    and the upload of [sample.esql] holding the two-line module is answered
    with 200, the converted name [sample.xsd], and a comment naming
    [sample.esql]. *)
Theorem xsdContent_embeds_comments
  (req : Request) (now1 now2 : Z) (res : Response) :
  (is_time_value now1 ->
   post_api_convert req now1 now2 = Normal res ->
   status res = 200 ->
   exists f x stamp,
     Get (json res) "originalFileName" = JStr f
     /\ Get (json res) "xsdContent" = JStr x
     /\ contains x (file_comment f)
     /\ contains x (stamp_comment stamp)
     /\ parse_timestamp stamp = Some now1)
  /\ (exists sres x,
        post_api_convert sample_upload now1 now2 = Normal sres
        /\ status sres = 200
        /\ Get (json sres) "convertedFileName" = JStr (lit "sample.xsd")
        /\ Get (json sres) "xsdContent" = JStr x
        /\ contains x (file_comment (lit "sample.esql"))).
Proof.
  split.
  - intros Ht H Hs.
    destruct (post_api_convert_200 _ _ _ _ H Hs) as (c & f & _ & _ & ->).
    exists f, (render f now1), (toISOString now1).
    split; [reflexivity|split; [reflexivity|split; [|split]]].
    + apply render_contains_file_comment.
    + apply render_contains_date_comment.
    + now apply parse_timestamp_toISOString.
  - exists (success_response
              (lit "CREATE COMPUTE MODULE Test" ++ [LF] ++ lit "END MODULE;")
              (lit "sample.esql") now1 now2),
           (render (lit "sample.esql") now1).
    split; [|split; [reflexivity|split; [reflexivity|split; [reflexivity|]]]].
    + rewrite post_api_convert_catches.
      rewrite (convert_try_success sample_upload now1 now2
                 (lit "CREATE COMPUTE MODULE Test" ++ [LF] ++ lit "END MODULE;")
                 (lit "sample.esql")); [reflexivity|reflexivity|].
      vm_compute. discriminate.
    + apply render_contains_file_comment.
Qed.

Lemma xsdContent_embeds_comments_witness :
  (exists f x stamp,
     Get (json (success_response (lit "a") (lit "input.esql") 1700000000123 1700000000124))
         "originalFileName" = JStr f
     /\ Get (json (success_response (lit "a") (lit "input.esql") 1700000000123 1700000000124))
         "xsdContent" = JStr x
     /\ contains x (file_comment f)
     /\ contains x (stamp_comment stamp)
     /\ parse_timestamp stamp = Some 1700000000123).
Proof.
  apply (proj1 (xsdContent_embeds_comments (text_request (lit "a"))
                  1700000000123 1700000000124
                  (success_response (lit "a") (lit "input.esql")
                     1700000000123 1700000000124)));
    [unfold is_time_value, time_value_max; lia
    | vm_compute; reflexivity | reflexivity].
Defined.

(** ** C8 *)

(** C8, as stated, fails: a text body of one space is not empty, no file
    is attached, and the response is a 400. *)
Lemma whitespace_text_body_counterexample :
  body space_request = JStr (lit " ")
  /\ lit " " <> []
  /\ req_files_file space_request = None
  /\ post_api_convert space_request 0 0
     = Normal (error_response 400 (lit "ESQL content is empty")).
Proof. repeat split. discriminate. Qed.

(** C8, amended. A request without a file whose body is a text that is
    not empty and not all whitespace is answered with 200, and its
    [originalFileName] is the default of the body branch, [input.esql]. *)
Theorem text_body_gets_default_name
  (req : Request) (text : jsstring) (now1 now2 : Z) :
  req_files_file req = None ->
  body req = JStr text ->
  trim text <> [] ->
  exists res,
    post_api_convert req now1 now2 = Normal res
    /\ status res = 200
    /\ Get (json res) "originalFileName" = JStr (lit "input.esql").
Proof.
  intros Hf Hb Ht.
  exists (success_response text (lit "input.esql") now1 now2).
  repeat split. rewrite post_api_convert_catches.
  rewrite (convert_try_success req now1 now2 text (lit "input.esql"));
    [reflexivity| |assumption].
  unfold extract. rewrite Hf, Hb.
  pose proof (trim_nonempty text Ht) as Hne. apply ToBoolean_string in Hne.
  rewrite Hne. reflexivity.
Qed.

Lemma text_body_gets_default_name_witness :
  exists res,
    post_api_convert (text_request (lit "CREATE COMPUTE MODULE Test")) 0 0 = Normal res
    /\ status res = 200
    /\ Get (json res) "originalFileName" = JStr (lit "input.esql").
Proof.
  apply (text_body_gets_default_name
           (text_request (lit "CREATE COMPUTE MODULE Test"))
           (lit "CREATE COMPUTE MODULE Test") 0 0);
    [reflexivity | reflexivity | vm_compute; discriminate].
Defined.

(** ** C9 *)




(** ** C10 *)

Lemma assoc_without_same (k : string) (ps : list (jsstring * JsVal)) :
  assoc (lit k) (without k ps) = None.
Proof.
  induction ps as [|[k' v] ps IH]; [reflexivity|].
  cbn [without filter fst]. destruct (jsstring_eqb k' (lit k)) eqn:E; cbn [negb].
  - exact IH.
  - cbn [assoc]. apply jsstring_eqb_neq in E.
    assert (E' : jsstring_eqb (lit k) k' = false) by (apply jsstring_eqb_neq; congruence).
    rewrite E'. exact IH.
Qed.

Lemma assoc_without_other (k : string) (k' : jsstring) (ps : list (jsstring * JsVal)) :
  k' <> lit k -> assoc k' (without k ps) = assoc k' ps.
Proof.
  intros Hne. induction ps as [|[k0 v] ps IH]; [reflexivity|].
  cbn [without filter fst assoc].
  destruct (jsstring_eqb k0 (lit k)) eqn:E; cbn [negb assoc].
  - apply jsstring_eqb_eq in E. subst k0.
    apply jsstring_eqb_neq in Hne. rewrite Hne. exact IH.
  - destruct (jsstring_eqb k' k0); [reflexivity|exact IH].
Qed.

(** The handler reads a request only through what it extracts from it. *)
Lemma post_api_convert_extract (r1 r2 : Request) (now1 now2 : Z) :
  extract r1 = extract r2 ->
  post_api_convert r1 now1 now2 = post_api_convert r2 now1 now2.
Proof.
  intros H. unfold post_api_convert, convert_try. now rewrite H.
Qed.

Lemma extract_upload (f : UploadedFile) :
  extract (upload_request f)
  = Normal (JStr (Buffer_toString_utf8 (data f)), JStr (name f)).
Proof. reflexivity. Qed.

Lemma extract_text (text : jsstring) :
  extract (text_request text)
  = Normal (JStr text,
            JStr (match text with [] => lit "unknown.esql" | _ => lit "input.esql" end)).
Proof. destruct text; reflexivity. Qed.

Lemma extract_json (ps : list (jsstring * JsVal)) :
  extract (json_request ps) =
  Normal (js_or (Get (JObj ps) "content") (Get (JObj ps) "esqlContent"),
          js_or (Get (JObj ps) "filename") (JStr (lit "input.esql"))).
Proof. reflexivity. Qed.

(** C10. In a JSON body a [filename] that is present but empty is handled
    as if the field were absent: the file name becomes [input.esql], and the
    response is that of the same body without the field.  And with an empty
    [content] and a non-empty [esqlContent], the content is taken from
    [esqlContent]. *)
Theorem falsy_fields_fall_back
  (ps : list (jsstring * JsVal)) (s : jsstring) (now1 now2 : Z) :
  (assoc (lit "filename") ps = Some (JStr []) ->
   (exists c, extract (json_request ps) = Normal (c, JStr (lit "input.esql")))
   /\ extract (json_request ps) = extract (json_request (without "filename" ps))
   /\ post_api_convert (json_request ps) now1 now2
      = post_api_convert (json_request (without "filename" ps)) now1 now2)
  /\ (assoc (lit "content") ps = Some (JStr []) ->
      assoc (lit "esqlContent") ps = Some (JStr s) ->
      s <> [] ->
      exists fileName, extract (json_request ps) = Normal (JStr s, fileName)).
Proof.
  split.
  - intros Hf.
    assert (Hx : extract (json_request ps)
                 = extract (json_request (without "filename" ps))).
    { rewrite !extract_json. unfold Get.
      rewrite assoc_without_same, Hf.
      rewrite !assoc_without_other by (vm_compute; discriminate).
      reflexivity. }
    split; [|split].
    + rewrite extract_json. unfold Get at 3. rewrite Hf. eexists. reflexivity.
    + exact Hx.
    + now apply post_api_convert_extract.
  - intros Hc He Hs. rewrite extract_json. unfold Get at 1 2. rewrite Hc, He.
    eexists. unfold js_or at 1. cbn [ToBoolean]. reflexivity.
Qed.

Lemma falsy_fields_fall_back_witness :
  ((exists c, extract (json_request fallback_body) = Normal (c, JStr (lit "input.esql")))
   /\ extract (json_request fallback_body)
      = extract (json_request (without "filename" fallback_body))
   /\ post_api_convert (json_request fallback_body) 0 0
      = post_api_convert (json_request (without "filename" fallback_body)) 0 0)
  /\ (exists fileName,
        extract (json_request fallback_body)
        = Normal (JStr (lit "CREATE COMPUTE MODULE Test"), fileName)).
Proof.
  destruct (falsy_fields_fall_back fallback_body
              (lit "CREATE COMPUTE MODULE Test") 0 0) as [H1 H2].
  split.
  - apply H1. reflexivity.
  - apply H2; [reflexivity | reflexivity | vm_compute; discriminate].
Defined.

(** ** C6 *)

Module XMLFacts.
Import XML.

Lemma run_app (o : option State) (a b : list Z) :
  run o (a ++ b) = run (run o a) b.
Proof. apply fold_left_app. Qed.

Lemma run_cons (st : State) (c : Z) (doc : list Z) :
  run (Some st) (c :: doc) = run (step st c) doc.
Proof. reflexivity. Qed.

Section Comment.
Variable open : list name.
Variable done : bool.

Lemma step_comment_hyphen (d : nat) :
  (d < 2)%nat ->
  step (in_comment d open done) 45 = Some (in_comment (S d) open done).
Proof.
  intros Hd. unfold step, in_comment. cbn [mode].
  apply Nat.ltb_lt in Hd. now rewrite Hd.
Qed.

Lemma step_comment_char (d : nat) (c : Z) :
  (d < 2)%nat -> c <> 45 -> is_char c = true ->
  step (in_comment d open done) c = Some (in_comment 0 open done).
Proof.
  intros Hd Hc Hx. unfold step, in_comment. cbn [mode].
  apply Nat.ltb_lt in Hd. rewrite Hd.
  apply Z.eqb_neq in Hc. now rewrite Hc, Hx.
Qed.

(** A comment body of XML characters without a double hyphen keeps the
    recogniser inside the comment. *)
Lemma run_comment_body (cps : list Z) :
  forall d,
    forallb is_char cps = true ->
    no_double_hyphen cps = true ->
    d = 0%nat \/ (d = 1%nat /\ hd 0 cps <> 45) ->
    exists d', (d' < 2)%nat
      /\ run (Some (in_comment d open done)) cps = Some (in_comment d' open done).
Proof.
  induction cps as [|c cps IH]; intros d Hch Hdd Hd.
  - exists d. split; [lia|reflexivity].
  - cbn [forallb] in Hch. apply andb_prop in Hch as [Hc Hch].
    assert (Hdd' : no_double_hyphen cps = true).
    { cbn [no_double_hyphen] in Hdd. destruct cps; [reflexivity|].
      now apply andb_prop in Hdd as [_ Hdd]. }
    rewrite run_cons. destruct (Z.eq_dec c 45) as [->|Hne].
    + destruct Hd as [->|[_ Hhd]]; [|now elim Hhd].
      rewrite step_comment_hyphen by lia.
      apply IH; [assumption|assumption|]. right. split; [reflexivity|].
      cbn [no_double_hyphen] in Hdd. destruct cps as [|b cps]; [cbn; lia|].
      apply andb_prop in Hdd as [Hdd _]. cbn [hd].
      destruct (Z.eqb_spec b 45); [discriminate|assumption].
    + rewrite (step_comment_char d c) by (assumption || lia).
      apply IH; [assumption|assumption|]. now left.
Qed.

Lemma step_comment_digit (d : nat) (n : Z) :
  (d < 2)%nat ->
  step (in_comment d open done) (48 + n mod 10) = Some (in_comment 0 open done).
Proof.
  intros Hd. pose proof (Z.mod_pos_bound n 10 ltac:(lia)) as Hn.
  apply step_comment_char; [assumption|lia|].
  unfold is_char. lia.
Qed.

(** Digits leave the recogniser in the comment, with no hyphen pending. *)
Lemma run_pad_digits (k : nat) :
  forall n d, (d < 2)%nat ->
    run (Some (in_comment d open done)) (pad_digits (S k) n)
    = Some (in_comment 0 open done).
Proof.
  induction k as [|k IH]; intros n d Hd.
  - cbn [pad_digits app]. rewrite run_cons, step_comment_digit by assumption.
    reflexivity.
  - change (pad_digits (S (S k)) n)
      with (pad_digits (S k) (n / 10) ++ [48 + n mod 10]).
    rewrite run_app, IH by assumption.
    rewrite run_cons, step_comment_digit by lia. reflexivity.
Qed.

Lemma run_year_text (y : Z) :
  run (Some (in_comment 0 open done)) (year_text y)
  = Some (in_comment 0 open done).
Proof.
  unfold year_text. destruct ((0 <=? y) && (y <=? 9999)).
  - apply run_pad_digits. lia.
  - rewrite run_app. destruct (y <? 0).
    + change (run (Some (in_comment 0 open done)) (lit "-"))
        with (Some (in_comment 1 open done)).
      apply run_pad_digits. lia.
    + change (run (Some (in_comment 0 open done)) (lit "+"))
        with (Some (in_comment 0 open done)).
      apply run_pad_digits. lia.
Qed.

(** So does a whole time stamp. *)
Lemma run_toISOString (t : Z) :
  run (Some (in_comment 0 open done)) (toISOString t)
  = Some (in_comment 0 open done).
Proof.
  unfold toISOString. destruct (civil_from_days (t / msPerDay)) as [[y m] d].
  rewrite run_app, run_year_text.
  repeat (rewrite run_app;
          match goal with
          | |- context [run (Some (in_comment 0 open done)) (lit "-")] =>
              change (run (Some (in_comment 0 open done)) (lit "-"))
                with (Some (in_comment 1 open done))
          | |- context [run (Some (in_comment 0 open done)) (lit ?s)] =>
              change (run (Some (in_comment 0 open done)) (lit s))
                with (Some (in_comment 0 open done))
          end;
          rewrite run_app, run_pad_digits by lia).
  reflexivity.
Qed.
End Comment.

Lemma option_map_app_nil (o : option (list Z)) : option_map (app []) o = o.
Proof. destruct o; reflexivity. Qed.

Lemma code_points_app_bounded (n : nat) :
  forall a a' b, (List.length a <= n)%nat ->
    code_points a = Some a' ->
    code_points (a ++ b) = option_map (app a') (code_points b).
Proof.
  induction n as [|n IH]; intros a a' b Hn Ha.
  - destruct a; [|cbn in Hn; lia]. injection Ha as <-.
    now rewrite option_map_app_nil.
  - destruct a as [|c a].
    + injection Ha as <-. now rewrite option_map_app_nil.
    + cbn [app code_points] in *. destruct (is_high_surrogate c).
      * destruct a as [|lo a]; [discriminate|]. cbn [app].
        destruct (is_low_surrogate lo); [|discriminate].
        destruct (code_points a) as [r|] eqn:Er; [|discriminate].
        injection Ha as <-.
        rewrite (IH a r b) by (cbn in Hn; lia || assumption).
        now destruct (code_points b).
      * destruct (is_low_surrogate c); [discriminate|].
        destruct (code_points a) as [r|] eqn:Er; [|discriminate].
        injection Ha as <-.
        rewrite (IH a r b) by (cbn in Hn; lia || assumption).
        now destruct (code_points b).
Qed.

(** Decoding goes through concatenation, when the first part decodes. *)
Lemma code_points_app (a a' b : jsstring) :
  code_points a = Some a' ->
  code_points (a ++ b) = option_map (app a') (code_points b).
Proof. apply (code_points_app_bounded (List.length a)). lia. Qed.

Lemma code_points_below_surrogates (s : jsstring) :
  below_surrogates s = true -> code_points s = Some s.
Proof.
  unfold below_surrogates. induction s as [|c s IH]; intros H; [reflexivity|].
  cbn [forallb] in H. apply andb_prop in H as [Hc Hs].
  cbn [code_points]. unfold is_high_surrogate, is_low_surrogate, in_range.
  replace (55296 <=? c) with false by lia.
  replace (56320 <=? c) with false by lia.
  cbn [andb]. now rewrite (IH Hs).
Qed.

Lemma below_surrogates_app (a b : jsstring) :
  below_surrogates (a ++ b) = below_surrogates a && below_surrogates b.
Proof. apply forallb_app. Qed.

Lemma below_surrogates_pad_digits (k : nat) (n : Z) :
  below_surrogates (pad_digits k n) = true.
Proof.
  revert n. induction k as [|k IH]; intros n; [reflexivity|].
  cbn [pad_digits]. rewrite below_surrogates_app, IH.
  pose proof (Z.mod_pos_bound n 10 ltac:(lia)).
  unfold below_surrogates. cbn [forallb]. lia.
Qed.

Lemma below_surrogates_toISOString (t : Z) :
  below_surrogates (toISOString t) = true.
Proof.
  unfold toISOString, year_text.
  destruct (civil_from_days (t / msPerDay)) as [[y m] d].
  destruct ((0 <=? y) && (y <=? 9999)); [|destruct (y <? 0)];
    rewrite ?below_surrogates_app, ?below_surrogates_pad_digits; reflexivity.
Qed.

(** The template around its two substitutions. *)
Lemma run_template_head :
  run (Some initial) template_head = Some (in_comment 0 [lit "xs:schema"] false).
Proof. vm_compute. reflexivity. Qed.

Lemma run_template_mid (d : nat) :
  (d < 2)%nat ->
  run (Some (in_comment d [lit "xs:schema"] false)) template_mid
  = Some (in_comment 0 [lit "xs:schema"] false).
Proof.
  intros Hd. destruct d as [|[|d]]; [vm_compute; reflexivity..|lia].
Qed.

Lemma run_template_tail :
  option_map accepting
    (run (Some (in_comment 0 [lit "xs:schema"] false)) template_tail)
  = Some true.
Proof. vm_compute. reflexivity. Qed.

Lemma code_points_template :
  code_points template_head = Some template_head
  /\ code_points template_mid = Some template_mid
  /\ code_points template_tail = Some template_tail.
Proof. vm_compute. repeat split. Qed.

(** The rendered document is well-formed when the file name can stand in a
    comment. *)
Lemma render_well_formed (f : jsstring) (now : Z) :
  comment_safe f = true ->
  well_formed_string (render f now) = true.
Proof.
  unfold comment_safe. destruct (code_points f) as [cps|] eqn:Ef; [|discriminate].
  intros Hsafe. apply andb_prop in Hsafe as [Hch Hdd].
  destruct code_points_template as (Hh & Hm & Ht).
  pose proof (code_points_below_surrogates _ (below_surrogates_toISOString now)) as Hi.
  unfold well_formed_string, render.
  rewrite (code_points_app _ _ _ Hh), (code_points_app _ _ _ Ef),
    (code_points_app _ _ _ Hm), (code_points_app _ _ _ Hi), Ht.
  cbn [option_map]. unfold well_formed.
  rewrite !run_app, run_template_head.
  destruct (run_comment_body [lit "xs:schema"] false cps 0%nat Hch Hdd
              (or_introl eq_refl)) as (d & Hd & ->).
  rewrite run_template_mid by assumption.
  rewrite run_toISOString.
  pose proof run_template_tail as Hend.
  destruct (run (Some (in_comment 0 [lit "xs:schema"] false)) template_tail);
    [|discriminate].
  now injection Hend.
Qed.

End XMLFacts.

(** C6. The handler at the failing input: a JSON body with content and the
    file name [a--b.esql] is answered with the success payload, whose
    [xsdContent] carries the file name as it came, in a comment that now has
    two hyphens in a row, and so is not well-formed XML. *)
Lemma double_hyphen_breaks_document :
  post_api_convert hyphens_request 0 0
  = Normal (success_response (lit "CREATE COMPUTE MODULE Test") (lit "a--b.esql") 0 0)
  /\ Get (json (success_response (lit "CREATE COMPUTE MODULE Test")
                                 (lit "a--b.esql") 0 0)) "xsdContent"
     = JStr (render (lit "a--b.esql") 0)
  /\ XML.well_formed_string (render (lit "a--b.esql") 0) = false.
Proof. vm_compute. repeat split. Qed.

(** Where the file name happens to be harmless: for content that is not
    blank the response is the success payload, its [xsdContentLength] is the
    length of its [xsdContent], and [xsdContent] is well-formed when the
    file name is made of XML characters and has no two hyphens in a row. *)
Lemma length_and_well_formedness
  (req : Request) (now1 now2 : Z) (c f : jsstring) :
  extract req = Normal (JStr c, JStr f) ->
  c <> [] ->
  trim c <> [] ->
  exists res x,
    post_api_convert req now1 now2 = Normal res
    /\ status res = 200
    /\ Get (json res) "xsdContent" = JStr x
    /\ Get (json res) "xsdContentLength" = Number_of_nat (List.length x)
    /\ (comment_safe f = true -> XML.well_formed_string x = true).
Proof.
  intros Hx _ Hc.
  exists (success_response c f now1 now2), (render f now1).
  split; [|split; [reflexivity|split; [reflexivity|split; [reflexivity|]]]].
  - rewrite post_api_convert_catches.
    now rewrite (convert_try_success req now1 now2 c f).
  - apply XMLFacts.render_well_formed.
Qed.

Lemma length_and_well_formedness_witness :
  exists res x,
    post_api_convert sample_upload 0 0 = Normal res
    /\ status res = 200
    /\ Get (json res) "xsdContent" = JStr x
    /\ Get (json res) "xsdContentLength" = Number_of_nat (List.length x)
    /\ XML.well_formed_string x = true.
Proof.
  destruct (length_and_well_formedness sample_upload 0 0
              (lit "CREATE COMPUTE MODULE Test" ++ [LF] ++ lit "END MODULE;")
              (lit "sample.esql"))
    as (res & x & H1 & H2 & H3 & H4 & H5);
    [reflexivity | vm_compute; discriminate | vm_compute; discriminate |].
  exists res, x. repeat split; try assumption. apply H5. reflexivity.
Defined.

(** * Beyond the specification: the first listing *)

(** ** Blank content *)

Lemma trimStart_nil_iff (s : jsstring) :
  trimStart s = [] <-> all_whitespace s = true.
Proof.
  unfold all_whitespace. induction s as [|c s IH]; cbn [trimStart forallb].
  - tauto.
  - destruct (is_js_whitespace c); cbn [andb]; [exact IH|].
    split; discriminate.
Qed.

(** What [trimStart] removes is white space. *)
Lemma trimStart_prefix (s : jsstring) :
  exists ws, s = ws ++ trimStart s /\ all_whitespace ws = true.
Proof.
  induction s as [|c s (ws & E & Hws)].
  - now exists [].
  - cbn [trimStart]. destruct (is_js_whitespace c) eqn:Hc.
    + exists (c :: ws). cbn. rewrite Hc, <- E. now split.
    + now exists [].
Qed.

Lemma all_whitespace_app (a b : jsstring) :
  all_whitespace (a ++ b) = all_whitespace a && all_whitespace b.
Proof. apply forallb_app. Qed.

Lemma all_whitespace_rev (s : jsstring) :
  all_whitespace (rev s) = all_whitespace s.
Proof.
  induction s as [|c s IH]; [reflexivity|].
  cbn [rev]. rewrite all_whitespace_app, IH.
  unfold all_whitespace. cbn [forallb]. now rewrite andb_true_r, andb_comm.
Qed.

(** Trimming leaves nothing exactly when there was only white space. *)
Lemma trim_nil_iff (s : jsstring) : trim s = [] <-> all_whitespace s = true.
Proof.
  unfold trim, trimEnd. split.
  - intros H. apply (f_equal (@rev _)) in H. rewrite rev_involutive in H.
    cbn in H. apply trimStart_nil_iff in H. rewrite all_whitespace_rev in H.
    destruct (trimStart_prefix s) as (ws & E & Hws).
    rewrite E, all_whitespace_app, Hws, H. reflexivity.
  - intros H. apply trimStart_nil_iff in H. rewrite H. reflexivity.
Qed.

Lemma ToString_array_throws (elems : list JsVal) :
  Forall (fun x => forall e, ToString x = Throw e -> e = primitive_error) elems ->
  forall e, ToString (JArr elems) = Throw e -> e = primitive_error.
Proof.
  induction 1 as [|x rest Hx _ IH]; intros e H; [discriminate|].
  cbn [ToString] in H, IH.
  destruct (match x with JUndefined | JNull => Normal [] | _ => ToString x end)
    as [a|e'] eqn:Ex; cbn [bind] in H.
  - destruct rest as [|y rest']; [discriminate|].
    match type of H with
    | bind ?j _ = _ => destruct j as [b'|e''] eqn:Ej
    end; cbn [bind] in H; [discriminate|].
    injection H as <-. now apply IH.
  - injection H as <-. destruct x; try discriminate; now apply Hx.
Qed.

(** [ToString] throws one thing only. *)
Lemma ToString_throws :
  forall (v : JsVal) (e : Exn), ToString v = Throw e -> e = primitive_error.
Proof.
  fix IH 1. intros v e. destruct v as [| |b|t|s|elems|ps];
    try (cbn [ToString]; discriminate).
  - destruct b; discriminate.
  - apply ToString_array_throws. clear e.
    revert elems. fix IHl 1. intros [|x rest]; constructor.
    + apply IH.
    + apply IHl.
  - cbn [ToString]. destruct (assoc (lit "toString") ps); [|discriminate].
    now intros [= <-].
Qed.

(** X1. [convertESQLToXSD] throws "ESQL content is empty" on a content string
    exactly when every code unit of it is white space (none at all
    included), whatever the file name. *)
Theorem convertESQLToXSD_rejects_exactly_blank
  (c : jsstring) (fileName : JsVal) (now : Z) :
  convertESQLToXSD (JStr c) fileName now = Throw (Error "ESQL content is empty")
  <-> all_whitespace c = true.
Proof.
  rewrite <- trim_nil_iff. split.
  - intros H. destruct (list_eq_dec Z.eq_dec (trim c) []) as [E|E]; [exact E|].
    rewrite convertESQLToXSD_nonblank in H by assumption.
    destruct (ToString fileName) as [t|e] eqn:Et; cbn [bind] in H; [discriminate|].
    apply ToString_throws in Et. subst e. discriminate.
  - apply convertESQLToXSD_blank.
Qed.

(** ** Why a request is refused *)

Lemma extract_throws (req : Request) (e : Exn) :
  extract req = Throw e ->
  e = TypeError "Cannot read properties of undefined (reading 'toString')".
Proof.
  unfold extract. destruct (req_files_file req) as [[f|fs]|]; cbn.
  - discriminate.
  - now intros [= <-].
  - destruct (ToBoolean (body req)); discriminate.
Qed.

Lemma convertESQLToXSD_not_string (c fileName : JsVal) (now : Z) :
  ToBoolean c = true -> not_string c = true ->
  convertESQLToXSD c fileName now
  = Throw (TypeError "esqlCode.trim is not a function").
Proof.
  intros Hb Hs. unfold convertESQLToXSD. rewrite Hb.
  destruct c; try discriminate; reflexivity.
Qed.

Lemma fileName_not_string (c : jsstring) (fileName : JsVal) (now : Z) :
  trim c <> [] -> not_string fileName = true ->
  exists e, (xsdContent <- convertESQLToXSD (JStr c) fileName now ;;
             outputFileName <- fileName_replace fileName ;;
             Normal (xsdContent, outputFileName)) = Throw e
            /\ (e = primitive_error
                \/ e = TypeError "fileName.replace is not a function").
Proof.
  intros Hc Hs. rewrite convertESQLToXSD_nonblank by assumption.
  destruct (ToString fileName) as [t|e] eqn:Et; cbn [bind].
  - exists (TypeError "fileName.replace is not a function").
    split; [|now right]. destruct fileName; try discriminate; reflexivity.
  - exists e. split; [reflexivity|]. left. now apply ToString_throws in Et.
Qed.

(** Every way the [try] block can throw. *)
Lemma convert_try_throws (req : Request) (now1 now2 : Z) (e : Exn) :
  convert_try req now1 now2 = Throw e ->
  (extract req = Throw e
   /\ e = TypeError "Cannot read properties of undefined (reading 'toString')")
  \/ exists c fileName,
       extract req = Normal (c, fileName)
       /\ ((ToBoolean c = false /\ e = Error "No ESQL content provided")
           \/ (ToBoolean c = true /\ not_string c = true
               /\ e = TypeError "esqlCode.trim is not a function")
           \/ (exists s, c = JStr s /\ s <> [] /\ trim s = []
                         /\ e = Error "ESQL content is empty")
           \/ (exists s, c = JStr s /\ trim s <> [] /\ not_string fileName = true
                         /\ (e = primitive_error
                             \/ e = TypeError "fileName.replace is not a function"))).
Proof.
  unfold convert_try. destruct (extract req) as [[c fn]|e0] eqn:Ex; cbn [bind].
  - intros H. right. exists c, fn. split; [reflexivity|].
    destruct (ToBoolean c) eqn:Hb; cbn [negb] in H.
    + destruct (not_string c) eqn:Hs.
      * rewrite convertESQLToXSD_not_string in H by assumption.
        cbn [bind] in H. injection H as <-. right. left. now repeat split.
      * destruct c; try discriminate. right. right.
        destruct (list_eq_dec Z.eq_dec (trim s) []) as [Ht|Ht].
        -- rewrite convertESQLToXSD_blank in H by assumption.
           cbn [bind] in H. injection H as <-. left. exists s.
           repeat split; try assumption. now apply ToBoolean_string.
        -- right. exists s. split; [reflexivity|]. split; [assumption|].
           destruct (not_string fn) eqn:Hf.
           ++ split; [reflexivity|].
              destruct (fileName_not_string s fn now1 Ht Hf) as (e' & He & Hor).
              destruct (convertESQLToXSD (JStr s) fn now1) as [x|ex]; cbn [bind] in *.
              ** destruct (fileName_replace fn) as [o|eo]; cbn [bind] in *;
                   [discriminate|]. congruence.
              ** congruence.
           ++ destruct fn; try discriminate.
              rewrite convertESQLToXSD_nonblank in H by assumption. discriminate.
    + injection H as <-. left. now split.
  - intros [= <-]. left. split; [reflexivity|]. now apply extract_throws in Ex.
Qed.

(** X2. The response is the 400 carrying "No ESQL content provided" exactly
    when the content the handler extracts is falsy: absent, [null], [false],
    zero or the empty string. *)
Theorem not_provided_iff_falsy (req : Request) (now1 now2 : Z) :
  post_api_convert req now1 now2
  = Normal (error_response 400 (lit "No ESQL content provided"))
  <-> exists c fileName, extract req = Normal (c, fileName) /\ ToBoolean c = false.
Proof.
  split.
  - intros H.
    destruct (post_api_convert_cases req now1 now2)
      as [(c & f & _ & _ & E)|(e & Ht & E)]; rewrite E in H; [discriminate|].
    injection H as Hm.
    destruct (convert_try_throws _ _ _ _ Ht)
      as [[_ ->]|(c & fn & Hx & [[Hb ->]|[(_ & _ & ->)|[(s & _ & _ & _ & ->)|
          (s & _ & _ & _ & [->| ->])]]])];
      try (vm_compute in Hm; discriminate).
    now exists c, fn.
  - intros (c & fn & Hx & Hb). rewrite post_api_convert_catches.
    unfold convert_try. rewrite Hx. cbn [bind]. now rewrite Hb.
Qed.

(** X3. The response is the 400 carrying "esqlCode.trim is not a function"
    exactly when the extracted content is truthy and not a string: a
    non-zero number, [true], an array or an object. *)
Theorem trim_error_iff_not_string (req : Request) (now1 now2 : Z) :
  post_api_convert req now1 now2
  = Normal (error_response 400 (lit "esqlCode.trim is not a function"))
  <-> exists c fileName,
        extract req = Normal (c, fileName)
        /\ ToBoolean c = true /\ not_string c = true.
Proof.
  split.
  - intros H.
    destruct (post_api_convert_cases req now1 now2)
      as [(c & f & _ & _ & E)|(e & Ht & E)]; rewrite E in H; [discriminate|].
    injection H as Hm.
    destruct (convert_try_throws _ _ _ _ Ht)
      as [[_ ->]|(c & fn & Hx & [[Hb ->]|[(Hb & Hs & ->)|[(s & _ & _ & _ & ->)|
          (s & _ & _ & _ & [->| ->])]]])];
      try (vm_compute in Hm; discriminate).
    now exists c, fn.
  - intros (c & fn & Hx & Hb & Hs). rewrite post_api_convert_catches.
    unfold convert_try. rewrite Hx. cbn [bind]. rewrite Hb. cbn [negb].
    now rewrite convertESQLToXSD_not_string.
Qed.

(** X4. Every request that reaches the handler is answered by it with the
    success payload or with a 400 whose message is one of six fixed texts;
    no error message of the handler carries any part of the request. *)
Theorem error_messages_are_fixed (req : Request) (now1 now2 : Z) :
  exists res,
    post_api_convert req now1 now2 = Normal res
    /\ (status res = 200
        \/ exists msg, res = error_response 400 msg /\ In msg handler_messages).
Proof.
  destruct (post_api_convert_cases req now1 now2)
    as [(c & f & _ & _ & E)|(e & Ht & E)]; rewrite E; eexists;
    (split; [reflexivity|]).
  - now left.
  - right. exists (message e). split; [reflexivity|].
    destruct (convert_try_throws _ _ _ _ Ht)
      as [[_ ->]|(c & fn & Hx & [[Hb ->]|[(Hb & Hs & ->)|[(s & _ & _ & _ & ->)|
          (s & _ & _ & _ & [->| ->])]]])];
      cbn; tauto.
Qed.

(** ** File names that are not strings, and repeated file fields *)

(** X5. With string content that is not blank, a file name that is not a
    string (a JSON number, [true], an array, an object) never succeeds: the
    response is a 400 whose message is one of two type errors. *)
Theorem non_string_file_name_is_refused
  (req : Request) (now1 now2 : Z) (c : jsstring) (fileName : JsVal) :
  extract req = Normal (JStr c, fileName) ->
  trim c <> [] ->
  not_string fileName = true ->
  exists msg,
    post_api_convert req now1 now2 = Normal (error_response 400 msg)
    /\ (msg = lit "Cannot convert object to primitive value"
        \/ msg = lit "fileName.replace is not a function").
Proof.
  intros Hx Hc Hf. rewrite post_api_convert_catches. unfold convert_try.
  rewrite Hx. cbn [bind].
  pose proof (trim_nonempty c Hc) as Hne. apply ToBoolean_string in Hne.
  rewrite Hne. cbn [negb].
  destruct (fileName_not_string c fileName now1 Hc Hf) as (e & He & Hor).
  destruct (convertESQLToXSD (JStr c) fileName now1) as [x|ex]; cbn [bind] in *.
  - destruct (fileName_replace fileName) as [o|eo]; cbn [bind] in *;
      [discriminate|].
    injection He as ->. exists (message e). split; [reflexivity|].
    destruct Hor as [-> | ->]; [now left|now right].
  - injection He as ->. exists (message e). split; [reflexivity|].
    destruct Hor as [-> | ->]; [now left|now right].
Qed.

Lemma non_string_file_name_is_refused_witness :
  exists msg,
    post_api_convert (json_request numeric_name_body) 0 0
    = Normal (error_response 400 msg)
    /\ (msg = lit "Cannot convert object to primitive value"
        \/ msg = lit "fileName.replace is not a function").
Proof.
  apply (non_string_file_name_is_refused (json_request numeric_name_body) 0 0
           (lit "CREATE COMPUTE MODULE Test") (JNum (lit "42")));
    [reflexivity | vm_compute; discriminate | reflexivity].
Defined.

(** X6. When the form sends the [file] field more than once, so that
    [req.files.file] is an array, the response is a 400 carrying the type
    error of reading [toString] of [undefined], whatever the files and the
    body are. *)
Theorem repeated_file_field_is_refused
  (req : Request) (now1 now2 : Z) (fs : list UploadedFile) :
  req_files_file req = Some (ManyFiles fs) ->
  post_api_convert req now1 now2
  = Normal (error_response 400
      (lit "Cannot read properties of undefined (reading 'toString')")).
Proof.
  intros H. rewrite post_api_convert_catches. unfold convert_try, extract.
  rewrite H. reflexivity.
Qed.

Lemma repeated_file_field_is_refused_witness :
  post_api_convert repeated_file_request 0 0
  = Normal (error_response 400
      (lit "Cannot read properties of undefined (reading 'toString')")).
Proof.
  apply (repeated_file_field_is_refused repeated_file_request 0 0
           [mkFile (lit "a.esql") (lit "A"); mkFile (lit "b.esql") (lit "B")]).
  reflexivity.
Defined.

(** ** Which input wins *)

(** X7. When a file is attached the body is never read: the same request
    with any other body gets the same response. *)
Theorem attached_file_hides_body
  (req : Request) (now1 now2 : Z) (file : Upload) (otherBody : JsVal) :
  req_files_file req = Some file ->
  extract req = extract (mkRequest (files req) otherBody)
  /\ post_api_convert req now1 now2
     = post_api_convert (mkRequest (files req) otherBody) now1 now2.
Proof.
  intros H.
  assert (Hx : extract req = extract (mkRequest (files req) otherBody)).
  { unfold extract. unfold req_files_file in *. cbn [files]. now rewrite H. }
  split; [exact Hx|now apply post_api_convert_extract].
Qed.

Lemma attached_file_hides_body_witness :
  extract sample_upload
  = extract (mkRequest (files sample_upload)
               (JObj [(lit "content", JStr (lit "SET x = 1;"));
                      (lit "filename", JStr (lit "other.esql"))]))
  /\ post_api_convert sample_upload 0 0
     = post_api_convert
         (mkRequest (files sample_upload)
            (JObj [(lit "content", JStr (lit "SET x = 1;"));
                   (lit "filename", JStr (lit "other.esql"))])) 0 0.
Proof.
  apply (attached_file_hides_body sample_upload 0 0
           (OneFile (mkFile (lit "sample.esql")
                       (lit "CREATE COMPUTE MODULE Test" ++ [LF] ++ lit "END MODULE;")))).
  reflexivity.
Defined.

Lemma js_or_truthy (v w : JsVal) : ToBoolean v = true -> js_or v w = v.
Proof. intros H. unfold js_or. now rewrite H. Qed.

(** X8. In a JSON body a truthy [content] wins over [esqlContent]: the
    content is the value of [content], and the response is that of the same
    body without the [esqlContent] field. *)
Theorem content_wins_over_esqlContent
  (ps : list (jsstring * JsVal)) (v : JsVal) (now1 now2 : Z) :
  assoc (lit "content") ps = Some v ->
  ToBoolean v = true ->
  (exists fileName, extract (json_request ps) = Normal (v, fileName))
  /\ post_api_convert (json_request ps) now1 now2
     = post_api_convert (json_request (without "esqlContent" ps)) now1 now2.
Proof.
  intros Hc Hb.
  assert (G1 : Get (JObj ps) "content" = v) by (unfold Get; now rewrite Hc).
  assert (G2 : Get (JObj (without "esqlContent" ps)) "content" = v).
  { unfold Get. rewrite assoc_without_other by (vm_compute; discriminate).
    now rewrite Hc. }
  assert (G3 : Get (JObj (without "esqlContent" ps)) "filename"
               = Get (JObj ps) "filename").
  { unfold Get. now rewrite assoc_without_other by (vm_compute; discriminate). }
  split.
  - rewrite extract_json, G1, (js_or_truthy v) by assumption.
    eexists. reflexivity.
  - apply post_api_convert_extract.
    rewrite !extract_json, G1, G2, G3, !(js_or_truthy v) by assumption.
    reflexivity.
Qed.

Lemma content_wins_over_esqlContent_witness :
  (exists fileName,
     extract (json_request both_contents_body)
     = Normal (JStr (lit "CREATE COMPUTE MODULE A"), fileName))
  /\ post_api_convert (json_request both_contents_body) 0 0
     = post_api_convert (json_request (without "esqlContent" both_contents_body)) 0 0.
Proof.
  apply (content_wins_over_esqlContent both_contents_body
           (JStr (lit "CREATE COMPUTE MODULE A")) 0 0); reflexivity.
Defined.

(** ** The converted file name *)

Lemma has_esql_suffix_xsd (p : jsstring) :
  has_esql_suffix (p ++ lit ".xsd") = false.
Proof.
  unfold has_esql_suffix. rewrite length_app.
  change (List.length (lit ".xsd")) with 4%nat.
  destruct (Nat.leb_spec 5 (List.length p + 4)) as [Hn|Hn]; [|reflexivity].
  cbn [andb]. apply jsstring_eqb_neq. intros H.
  replace (List.length p + 4 - 5)%nat with (List.length p - 1)%nat in H by lia.
  rewrite skipn_app in H.
  replace (List.length p - 1 - List.length p)%nat with 0%nat in H by lia.
  cbn [skipn] in H. rewrite map_app in H.
  assert (Hl : List.length (skipn (List.length p - 1) p) = 1%nat)
    by (rewrite length_skipn; lia).
  destruct (skipn (List.length p - 1) p) as [|a [|b r]]; discriminate.
Qed.

(** X9. The converted file name never ends in [.esql], in any mix of
    cases, and converting it again changes nothing. *)
Theorem converted_name_is_final (f : jsstring) :
  has_esql_suffix (replace_esql f) = false
  /\ replace_esql (replace_esql f) = replace_esql f.
Proof.
  assert (H : has_esql_suffix (replace_esql f) = false).
  { rewrite replace_esql_spec. unfold convertedFileName_spec.
    destruct (has_esql_suffix f) eqn:E; [apply has_esql_suffix_xsd|exact E]. }
  split; [exact H|].
  rewrite (replace_esql_spec (replace_esql f)). unfold convertedFileName_spec.
  now rewrite H.
Qed.

(** ** Uploads and lengths *)

Lemma utf8_decode_ascii (data : Buffer) :
  ascii_bytes data = true -> utf8_decode utf8_initial data = data.
Proof.
  unfold ascii_bytes. induction data as [|b data IH]; intros H; [reflexivity|].
  cbn [forallb] in H. apply andb_prop in H as [Hb H].
  cbn [utf8_decode utf8_initial bytes_needed]. unfold utf8_lead.
  replace (b <=? 127) with true by lia. cbn [app]. f_equal. now apply IH.
Qed.

Lemma utf16_encode_ascii (data : Buffer) :
  ascii_bytes data = true -> flat_map utf16_encode data = data.
Proof.
  unfold ascii_bytes. induction data as [|b data IH]; intros H; [reflexivity|].
  cbn [forallb] in H. apply andb_prop in H as [Hb H].
  cbn [flat_map]. unfold utf16_encode at 1.
  replace (b <? 65536) with true by lia. cbn [app]. f_equal. now apply IH.
Qed.

(** ASCII bytes decode to themselves. *)
Lemma Buffer_toString_utf8_ascii (data : Buffer) :
  ascii_bytes data = true -> Buffer_toString_utf8 data = data.
Proof.
  intros H. unfold Buffer_toString_utf8.
  rewrite utf8_decode_ascii by assumption. now apply utf16_encode_ascii.
Qed.

Lemma units_app (a b : list Z) : units (a ++ b) = (units a + units b)%nat.
Proof. unfold units. now rewrite flat_map_app, length_app. Qed.

Lemma units_cons (c : Z) (l : list Z) : (units (c :: l) <= 2 + units l)%nat.
Proof.
  unfold units. cbn [flat_map]. rewrite length_app.
  unfold utf16_encode. destruct (c <? 65536); cbn; lia.
Qed.

(** A byte that opens a sequence yields at most one code unit, and none
    when it leaves the sequence open. *)
Lemma units_lead (b : Z) :
  (units (fst (utf8_lead b))
   + match bytes_needed (snd (utf8_lead b)) with O => 0 | S _ => 1 end <= 1)%nat.
Proof.
  unfold utf8_lead. destruct (Z.leb_spec b 127) as [Hb|Hb].
  - cbn. unfold units. cbn [flat_map]. unfold utf16_encode.
    replace (b <? 65536) with true by lia. cbn. lia.
  - destruct ((194 <=? b) && (b <=? 223)); [cbn; lia|].
    destruct ((224 <=? b) && (b <=? 239)); [cbn; lia|].
    destruct ((240 <=? b) && (b <=? 244)); [cbn; lia|].
    vm_compute. lia.
Qed.

(** Decoding never yields more code units than there are bytes, an open
    sequence counting for one. *)
Lemma utf8_decode_units (data : Buffer) :
  forall st,
    (units (utf8_decode st data)
     <= List.length data + match bytes_needed st with O => 0 | S _ => 1 end)%nat.
Proof.
  induction data as [|b data IH]; intros st.
  - cbn [utf8_decode]. destruct (bytes_needed st); cbn; lia.
  - cbn [utf8_decode List.length]. destruct (bytes_needed st) as [|k].
    + pose proof (units_lead b) as Hl. destruct (utf8_lead b) as [out st'].
      cbn [fst snd] in Hl. rewrite units_app. specialize (IH st'). lia.
    + destruct ((lower_boundary st <=? b) && (b <=? upper_boundary st)).
      * destruct k as [|k'].
        -- pose proof (units_cons (Z.lor (Z.shiftl (code_point st) 6) (Z.land b 63))
                         (utf8_decode utf8_initial data)) as Hc.
           specialize (IH utf8_initial). cbn [utf8_initial bytes_needed] in IH. lia.
        -- specialize (IH (mkUtf8 (Z.lor (Z.shiftl (code_point st) 6) (Z.land b 63))
                                  (S k') 128 191)).
           cbn [bytes_needed] in IH. lia.
      * pose proof (units_lead b) as Hl. destruct (utf8_lead b) as [out st'].
        cbn [fst snd] in Hl.
        change (REPLACEMENT :: out ++ utf8_decode st' data)
          with ([REPLACEMENT] ++ out ++ utf8_decode st' data).
        rewrite !units_app. specialize (IH st').
        change (units [REPLACEMENT]) with 1%nat. lia.
Qed.

Lemma Buffer_toString_utf8_length (data : Buffer) :
  (List.length (Buffer_toString_utf8 data) <= List.length data)%nat.
Proof.
  pose proof (utf8_decode_units data utf8_initial) as H.
  cbn [utf8_initial bytes_needed] in H. unfold units in H.
  unfold Buffer_toString_utf8. lia.
Qed.

Lemma extract_one_file (req : Request) (f : UploadedFile) :
  req_files_file req = Some (OneFile f) ->
  extract req = Normal (JStr (Buffer_toString_utf8 (data f)), JStr (name f)).
Proof. intros H. unfold extract. now rewrite H. Qed.

(** X10. An uploaded file of ASCII bytes is taken byte for byte: when it is
    not blank the response is a 200 whose [esqlContentLength] is the size of
    the file in bytes. *)
Theorem ascii_upload_is_taken_as_is
  (req : Request) (now1 now2 : Z) (f : UploadedFile) :
  req_files_file req = Some (OneFile f) ->
  ascii_bytes (data f) = true ->
  trim (data f) <> [] ->
  extract req = Normal (JStr (data f), JStr (name f))
  /\ exists res,
       post_api_convert req now1 now2 = Normal res
       /\ status res = 200
       /\ Get (json res) "esqlContentLength" = Number_of_nat (List.length (data f)).
Proof.
  intros Hf Ha Ht.
  assert (Hx : extract req = Normal (JStr (data f), JStr (name f))).
  { rewrite (extract_one_file req f Hf). now rewrite Buffer_toString_utf8_ascii. }
  split; [exact Hx|].
  exists (success_response (data f) (name f) now1 now2).
  split; [|split; reflexivity].
  rewrite post_api_convert_catches.
  now rewrite (convert_try_success req now1 now2 (data f) (name f)).
Qed.

Lemma ascii_upload_is_taken_as_is_witness :
  extract sample_upload
  = Normal (JStr (lit "CREATE COMPUTE MODULE Test" ++ [LF] ++ lit "END MODULE;"),
            JStr (lit "sample.esql"))
  /\ exists res,
       post_api_convert sample_upload 0 0 = Normal res
       /\ status res = 200
       /\ Get (json res) "esqlContentLength" = Number_of_nat 38.
Proof.
  apply (ascii_upload_is_taken_as_is sample_upload 0 0
           (mkFile (lit "sample.esql")
              (lit "CREATE COMPUTE MODULE Test" ++ [LF] ++ lit "END MODULE;")));
    [reflexivity | reflexivity | vm_compute; discriminate].
Defined.

(** X11. For every uploaded file that is accepted, the [esqlContentLength]
    of the response is at most the size of the file in bytes. *)
Theorem upload_length_at_most_bytes
  (req : Request) (now1 now2 : Z) (f : UploadedFile) (res : Response) :
  req_files_file req = Some (OneFile f) ->
  post_api_convert req now1 now2 = Normal res ->
  status res = 200 ->
  exists n,
    Get (json res) "esqlContentLength" = Number_of_nat n
    /\ (n <= List.length (data f))%nat.
Proof.
  intros Hf H Hs.
  destruct (post_api_convert_200 _ _ _ _ H Hs) as (c & f0 & Hx & _ & ->).
  rewrite (extract_one_file req f Hf) in Hx. injection Hx as <- <-.
  exists (List.length (Buffer_toString_utf8 (data f))).
  split; [reflexivity|apply Buffer_toString_utf8_length].
Qed.

Lemma upload_length_at_most_bytes_witness :
  exists n,
    Get (json (success_response
                 (lit "CREATE COMPUTE MODULE Test" ++ [LF] ++ lit "END MODULE;")
                 (lit "sample.esql") 0 0)) "esqlContentLength"
    = Number_of_nat n
    /\ (n <= List.length (lit "CREATE COMPUTE MODULE Test" ++ [LF] ++ lit "END MODULE;"))%nat.
Proof.
  apply (upload_length_at_most_bytes sample_upload 0 0
           (mkFile (lit "sample.esql")
              (lit "CREATE COMPUTE MODULE Test" ++ [LF] ++ lit "END MODULE;")));
    [reflexivity | vm_compute; reflexivity | reflexivity].
Defined.

Lemma pad_digits_length (k : nat) (n : Z) : List.length (pad_digits k n) = k.
Proof.
  revert n. induction k as [|k IH]; intros n; [reflexivity|].
  cbn [pad_digits]. rewrite length_app, IH. cbn. lia.
Qed.

(** From 1970 through 9999 the year has four digits. *)
Lemma civil_year_range (t : Z) :
  0 <= t <= end_of_9999 ->
  0 <= fst (fst (civil_from_days (t / msPerDay))) <= 9999.
Proof.
  intros Ht. unfold civil_from_days, msPerDay, end_of_9999 in *.
  cbv zeta. cbn [fst].
  destruct (_ <? 10) eqn:E1; destruct (_ <=? 2) eqn:E2;
    Z.div_mod_to_equations; lia.
Qed.

Lemma toISOString_length (t : Z) :
  0 <= t <= end_of_9999 -> List.length (toISOString t) = 24%nat.
Proof.
  intros Ht. pose proof (civil_year_range t Ht) as Hy.
  unfold toISOString. destruct (civil_from_days (t / msPerDay)) as [[y m] d].
  cbn [fst] in Hy. unfold year_text.
  replace ((0 <=? y) && (y <=? 9999)) with true by lia.
  rewrite !length_app, !pad_digits_length. reflexivity.
Qed.

Lemma render_length_1970_9999 (f : jsstring) (now : Z) :
  0 <= now <= end_of_9999 ->
  List.length (render f now) = (2453 + List.length f)%nat.
Proof.
  intros Ht. unfold render.
  rewrite !length_app, (toISOString_length now Ht).
  assert (Hc : (List.length template_head + List.length template_mid
                + List.length template_tail = 2429)%nat)
    by (vm_compute; reflexivity).
  lia.
Qed.

(** X12. In every successful response produced from 1970 through the year
    9999 the [conversionDate] has 24 code units and [xsdContentLength] is
    2453 plus the length of the file name: the size of the document does
    not depend on the content. *)
Theorem xsdContentLength_formula
  (req : Request) (now1 now2 : Z) (res : Response) :
  0 <= now1 <= end_of_9999 ->
  0 <= now2 <= end_of_9999 ->
  post_api_convert req now1 now2 = Normal res ->
  status res = 200 ->
  exists f d,
    Get (json res) "originalFileName" = JStr f
    /\ Get (json res) "xsdContentLength" = Number_of_nat (2453 + List.length f)
    /\ Get (json res) "conversionDate" = JStr d
    /\ List.length d = 24%nat.
Proof.
  intros H1 H2 H Hs.
  destruct (post_api_convert_200 _ _ _ _ H Hs) as (c & f & _ & _ & ->).
  exists f, (toISOString now2).
  split; [reflexivity|]. split; [|split; [reflexivity|now apply toISOString_length]].
  change (Number_of_nat (List.length (render f now1))
          = Number_of_nat (2453 + List.length f)).
  now rewrite render_length_1970_9999.
Qed.

Lemma xsdContentLength_formula_witness :
  exists f d,
    Get (json (success_response (lit "a") (lit "input.esql") 0 1)) "originalFileName"
    = JStr f
    /\ Get (json (success_response (lit "a") (lit "input.esql") 0 1)) "xsdContentLength"
       = Number_of_nat (2453 + List.length f)
    /\ Get (json (success_response (lit "a") (lit "input.esql") 0 1)) "conversionDate"
       = JStr d
    /\ List.length d = 24%nat.
Proof.
  apply (xsdContentLength_formula (text_request (lit "a")) 0 1
           (success_response (lit "a") (lit "input.esql") 0 1));
    [vm_compute; split; discriminate | vm_compute; split; discriminate
    | vm_compute; reflexivity | reflexivity].
Defined.

(** X13. Two requests with the same file name whose contents are not blank
    and have the same length get the same response at the same clock
    readings: of the content, only its length reaches the client. *)
Theorem response_shows_only_content_length
  (req1 req2 : Request) (now1 now2 : Z) (c1 c2 f : jsstring) :
  extract req1 = Normal (JStr c1, JStr f) ->
  extract req2 = Normal (JStr c2, JStr f) ->
  trim c1 <> [] ->
  trim c2 <> [] ->
  List.length c1 = List.length c2 ->
  post_api_convert req1 now1 now2 = post_api_convert req2 now1 now2.
Proof.
  intros H1 H2 T1 T2 Hl. rewrite !post_api_convert_catches.
  rewrite (convert_try_success req1 now1 now2 c1 f) by assumption.
  rewrite (convert_try_success req2 now1 now2 c2 f) by assumption.
  unfold success_response. now rewrite Hl.
Qed.

Lemma response_shows_only_content_length_witness :
  post_api_convert (text_request (lit "CREATE COMPUTE MODULE A")) 0 0
  = post_api_convert
      (json_request [(lit "content", JStr (lit "CREATE COMPUTE MODULE B"))]) 0 0.
Proof.
  apply (response_shows_only_content_length
           (text_request (lit "CREATE COMPUTE MODULE A"))
           (json_request [(lit "content", JStr (lit "CREATE COMPUTE MODULE B"))])
           0 0 (lit "CREATE COMPUTE MODULE A") (lit "CREATE COMPUTE MODULE B")
           (lit "input.esql"));
    [reflexivity | reflexivity | vm_compute; discriminate
    | vm_compute; discriminate | reflexivity].
Defined.

(** * Beyond the specification: the other listings *)

Module TemplateFacts.
Import XML XMLFacts.

(** A template that opens a comment before its first substitution, keeps it
    open across the second, and closes everything after it renders
    well-formed documents for file names that can stand in a comment. *)
Lemma template_well_formed
  (head mid tail : jsstring) (open : list XML.name) (f : jsstring) (now : Z) :
  code_points head = Some head ->
  code_points mid = Some mid ->
  code_points tail = Some tail ->
  run (Some initial) head = Some (in_comment 0 open false) ->
  (forall d, (d < 2)%nat ->
     run (Some (in_comment d open false)) mid = Some (in_comment 0 open false)) ->
  option_map accepting (run (Some (in_comment 0 open false)) tail) = Some true ->
  comment_safe f = true ->
  well_formed_string (head ++ f ++ mid ++ toISOString now ++ tail) = true.
Proof.
  intros Hh Hm Ht Rh Rm Rt. unfold comment_safe.
  destruct (code_points f) as [cps|] eqn:Ef; [|discriminate].
  intros Hsafe. apply andb_prop in Hsafe as [Hch Hdd].
  pose proof (code_points_below_surrogates _ (below_surrogates_toISOString now)) as Hi.
  unfold well_formed_string.
  rewrite (code_points_app _ _ _ Hh), (code_points_app _ _ _ Ef),
    (code_points_app _ _ _ Hm), (code_points_app _ _ _ Hi), Ht.
  cbn [option_map]. unfold well_formed.
  rewrite !run_app, Rh.
  destruct (run_comment_body open false cps 0%nat Hch Hdd (or_introl eq_refl))
    as (d & Hd & ->).
  rewrite (Rm d Hd), run_toISOString.
  destruct (run (Some (in_comment 0 open false)) tail); [|discriminate].
  now injection Rt.
Qed.

Lemma multer_render_well_formed (f : jsstring) (now : Z) :
  comment_safe f = true -> well_formed_string (Multer.render f now) = true.
Proof.
  apply (template_well_formed _ _ _ [lit "xs:schema"]);
    try (vm_compute; reflexivity).
  intros [|[|d]] Hd; [vm_compute; reflexivity..|lia].
Qed.

Lemma customer_render_well_formed (f : jsstring) (now : Z) :
  comment_safe f = true -> well_formed_string (Customer.render f now) = true.
Proof.
  apply (template_well_formed _ _ _ [lit "xs:schema"]);
    try (vm_compute; reflexivity).
  intros [|[|d]] Hd; [vm_compute; reflexivity..|lia].
Qed.

End TemplateFacts.

(** ** The customer-and-order listing *)

(** The two [convertESQLToXSD] throw alike and differ in the template. *)
Lemma customer_convert (c fileName : JsVal) (now : Z) :
  (exists e, convertESQLToXSD c fileName now = Throw e
             /\ Customer.convertESQLToXSD c fileName now = Throw e)
  \/ (exists s t, c = JStr s /\ trim s <> []
                  /\ convertESQLToXSD c fileName now = Normal (render t now)
                  /\ Customer.convertESQLToXSD c fileName now
                     = Normal (Customer.render t now)).
Proof.
  unfold convertESQLToXSD, Customer.convertESQLToXSD.
  destruct (ToBoolean c); cbn [negb]; [|left; eexists; split; reflexivity].
  destruct c as [| |b|n|s|es|ps]; cbn [call_trim bind];
    try (left; eexists; split; reflexivity).
  destruct (jsstring_eqb (trim s) []) eqn:E;
    [left; eexists; split; reflexivity|].
  apply jsstring_eqb_neq in E.
  destruct (ToString fileName) as [t|e]; cbn [bind].
  - right. exists s, t. now repeat split.
  - left. exists e. now split.
Qed.

(** X14. On every request that reaches the handler, the handlers of the
    first and the third listing answer alike but for the document: both
    responses have the same status and are equal once [xsdContent] and
    [xsdContentLength] are left out, error responses being equal outright. *)
Theorem listings_differ_in_document_only (req : Request) (now1 now2 : Z) :
  exists r1 r3,
    post_api_convert req now1 now2 = Normal r1
    /\ Customer.post_api_convert req now1 now2 = Normal r3
    /\ status r1 = status r3
    /\ without_xsd r1 = without_xsd r3
    /\ (status r1 = 400 -> r1 = r3).
Proof.
  unfold post_api_convert, Customer.post_api_convert, convert_try,
    Customer.convert_try.
  destruct (extract req) as [[c fn]|e]; cbn [bind try_catch];
    [|do 2 eexists; repeat split; reflexivity].
  destruct (ToBoolean c); cbn [negb try_catch];
    [|do 2 eexists; repeat split; reflexivity].
  destruct (customer_convert c fn now1)
    as [(e & -> & ->)|(s & t & -> & _ & -> & ->)]; cbn [bind try_catch];
    [do 2 eexists; repeat split; reflexivity|].
  destruct (fileName_replace fn) as [o|e]; cbn [bind try_catch];
    [|do 2 eexists; repeat split; reflexivity].
  do 2 eexists. split; [reflexivity|]. split; [reflexivity|].
  split; [reflexivity|]. split; [reflexivity|]. discriminate.
Qed.


Lemma customer_convert_string (c f : jsstring) (now : Z) :
  trim c <> [] ->
  Customer.convertESQLToXSD (JStr c) (JStr f) now = Normal (Customer.render f now).
Proof.
  intros Hc. unfold Customer.convertESQLToXSD.
  pose proof (trim_nonempty c Hc) as Hne. apply ToBoolean_string in Hne.
  rewrite Hne. cbn [negb call_trim bind].
  apply jsstring_eqb_neq in Hc. now rewrite Hc.
Qed.

(** X16. In the third listing, content that is not blank with a file name
    of XML characters without two hyphens in a row is answered with a 200
    whose [xsdContent], the longer template, is well-formed XML. *)
Theorem customer_document_is_well_formed
  (req : Request) (now1 now2 : Z) (c f : jsstring) :
  extract req = Normal (JStr c, JStr f) ->
  trim c <> [] ->
  comment_safe f = true ->
  exists res x,
    Customer.post_api_convert req now1 now2 = Normal res
    /\ status res = 200
    /\ Get (json res) "xsdContent" = JStr x
    /\ Get (json res) "xsdContentLength" = Number_of_nat (List.length x)
    /\ XML.well_formed_string x = true.
Proof.
  intros Hx Hc Hf.
  unfold Customer.post_api_convert, Customer.convert_try.
  rewrite Hx. cbn [bind].
  pose proof (trim_nonempty c Hc) as Hne. apply ToBoolean_string in Hne.
  rewrite Hne. cbn [negb]. rewrite customer_convert_string by assumption.
  cbn [bind fileName_replace try_catch].
  eexists. exists (Customer.render f now1).
  split; [reflexivity|]. split; [reflexivity|]. split; [reflexivity|].
  split; [reflexivity|]. now apply TemplateFacts.customer_render_well_formed.
Qed.

Lemma customer_document_is_well_formed_witness :
  exists res x,
    Customer.post_api_convert sample_upload 0 0 = Normal res
    /\ status res = 200
    /\ Get (json res) "xsdContent" = JStr x
    /\ Get (json res) "xsdContentLength" = Number_of_nat (List.length x)
    /\ XML.well_formed_string x = true.
Proof.
  apply (customer_document_is_well_formed sample_upload 0 0
           (lit "CREATE COMPUTE MODULE Test" ++ [LF] ++ lit "END MODULE;")
           (lit "sample.esql"));
    [reflexivity | vm_compute; discriminate | reflexivity].
Defined.

(** ** The multer listing *)

Lemma multer_convert_blank (c fileName : JsVal) (now : Z) :
  ToBoolean c = false \/ (exists s, c = JStr s /\ trim s = []) ->
  Multer.convertESQLToXSD c fileName now = Throw (Error "ESQL content is empty").
Proof.
  unfold Multer.convertESQLToXSD. intros [H|(s & -> & H)].
  - now rewrite H.
  - destruct (ToBoolean (JStr s)); cbn [negb call_trim bind]; [|reflexivity].
    now rewrite H.
Qed.

Lemma multer_convert_string (c f : jsstring) (now : Z) :
  trim c <> [] ->
  Multer.convertESQLToXSD (JStr c) (JStr f) now = Normal (Multer.render f now).
Proof.
  intros Hc. unfold Multer.convertESQLToXSD.
  pose proof (trim_nonempty c Hc) as Hne. apply ToBoolean_string in Hne.
  rewrite Hne. cbn [negb call_trim bind].
  apply jsstring_eqb_neq in Hc. now rewrite Hc.
Qed.

(** X17. The second listing has no guard of its own: content that is
    falsy, absent included, or a string of white space only is answered
    with the 400 carrying "ESQL content is empty". *)
Theorem multer_blank_content_message
  (req : Multer.Request) (now1 now2 : Z) (c fileName : JsVal) :
  Multer.extract req = (c, fileName) ->
  ToBoolean c = false \/ (exists s, c = JStr s /\ trim s = []) ->
  Multer.post_api_convert req now1 now2
  = Normal (error_response 400 (lit "ESQL content is empty")).
Proof.
  intros Hx Hc. unfold Multer.post_api_convert, Multer.convert_try.
  rewrite Hx. now rewrite multer_convert_blank.
Qed.

Lemma multer_blank_content_message_witness :
  Multer.post_api_convert
    (Multer.json_request [(lit "content", JStr (lit ""));
                          (lit "filename", JStr (lit "x.esql"))]) 0 0
  = Normal (error_response 400 (lit "ESQL content is empty")).
Proof.
  apply (multer_blank_content_message
           (Multer.json_request [(lit "content", JStr (lit ""));
                                 (lit "filename", JStr (lit "x.esql"))]) 0 0
           (JStr (lit "")) (JStr (lit "x.esql")));
    [reflexivity | left; reflexivity].
Defined.

(** X18. The second listing never reads [esqlContent]: a JSON body gets
    the response of the same body without that field, and a body that has
    no [content] is refused whatever its [esqlContent]. *)
Theorem multer_ignores_esqlContent
  (ps : list (jsstring * JsVal)) (now1 now2 : Z) :
  Multer.post_api_convert (Multer.json_request ps) now1 now2
  = Multer.post_api_convert (Multer.json_request (without "esqlContent" ps)) now1 now2
  /\ (assoc (lit "content") ps = None ->
      Multer.post_api_convert (Multer.json_request ps) now1 now2
      = Normal (error_response 400 (lit "ESQL content is empty"))).
Proof.
  split.
  - unfold Multer.post_api_convert, Multer.convert_try, Multer.extract,
      Multer.json_request. cbn [Multer.file Multer.body ToBoolean typeof_string].
    unfold Get. now rewrite !assoc_without_other by (vm_compute; discriminate).
  - intros H. apply (multer_blank_content_message _ _ _ JUndefined
                       (js_or (Get (JObj ps) "filename") (JStr (lit "input.esql")))).
    + unfold Multer.extract, Multer.json_request.
      cbn [Multer.file Multer.body ToBoolean typeof_string].
      unfold Get at 1. now rewrite H.
    + now left.
Qed.

Lemma multer_ignores_esqlContent_witness :
  Multer.post_api_convert
    (Multer.json_request [(lit "esqlContent", JStr (lit "CREATE COMPUTE MODULE B"))]) 0 0
  = Normal (error_response 400 (lit "ESQL content is empty")).
Proof.
  apply (proj2 (multer_ignores_esqlContent
                  [(lit "esqlContent", JStr (lit "CREATE COMPUTE MODULE B"))] 0 0)).
  reflexivity.
Defined.

(** X19. Every response the handler of the second listing sends, that is
    for every request that got past [upload.single('file')] and the body
    parsers, is either a 200 with exactly the five fields [success],
    [originalFileName], [convertedFileName], [xsdContent] and
    [conversionDate], none undefined, or a 400 with [success] and a string
    [error]; it reports no lengths. *)
Theorem multer_response_shapes (req : Multer.Request) (now1 now2 : Z) :
  exists res,
    Multer.post_api_convert req now1 now2 = Normal res
    /\ ((status res = 200
         /\ fields_of (json res) = Multer.success_fields
         /\ Get (json res) "success" = JBool true
         /\ all_defined (json res) = true)
        \/ (status res = 400
            /\ fields_of (json res) = error_fields
            /\ Get (json res) "success" = JBool false
            /\ exists msg, Get (json res) "error" = JStr msg)).
Proof.
  unfold Multer.post_api_convert, Multer.convert_try.
  destruct (Multer.extract req) as [c fn].
  destruct (Multer.convertESQLToXSD c fn now1) as [x|e]; cbn [bind try_catch].
  - destruct fn as [| |b|t|f|es|ps]; cbn [fileName_replace bind try_catch];
      eexists; (split; [reflexivity|]);
      try (right; repeat split; eexists; reflexivity).
    left. repeat split.
  - eexists. split; [reflexivity|]. right. repeat split. eexists. reflexivity.
Qed.

(** X20. In the second listing, content that is not blank with a file name
    of XML characters without two hyphens in a row is answered with a 200
    whose [xsdContent], the stub template, is well-formed XML. *)
Theorem multer_document_is_well_formed
  (req : Multer.Request) (now1 now2 : Z) (c f : jsstring) :
  Multer.extract req = (JStr c, JStr f) ->
  trim c <> [] ->
  comment_safe f = true ->
  exists res x,
    Multer.post_api_convert req now1 now2 = Normal res
    /\ status res = 200
    /\ Get (json res) "xsdContent" = JStr x
    /\ XML.well_formed_string x = true.
Proof.
  intros Hx Hc Hf.
  unfold Multer.post_api_convert, Multer.convert_try. rewrite Hx.
  rewrite multer_convert_string by assumption.
  cbn [bind fileName_replace try_catch].
  eexists. exists (Multer.render f now1).
  split; [reflexivity|]. split; [reflexivity|]. split; [reflexivity|].
  now apply TemplateFacts.multer_render_well_formed.
Qed.

Lemma multer_document_is_well_formed_witness :
  exists res x,
    Multer.post_api_convert
      (Multer.mkRequest
         (Some (Multer.mkFile (lit "sample.esql")
                  (lit "CREATE COMPUTE MODULE Test" ++ [LF] ++ lit "END MODULE;")))
         JUndefined) 0 0
    = Normal res
    /\ status res = 200
    /\ Get (json res) "xsdContent" = JStr x
    /\ XML.well_formed_string x = true.
Proof.
  apply (multer_document_is_well_formed
           (Multer.mkRequest
              (Some (Multer.mkFile (lit "sample.esql")
                       (lit "CREATE COMPUTE MODULE Test" ++ [LF] ++ lit "END MODULE;")))
              JUndefined) 0 0
           (lit "CREATE COMPUTE MODULE Test" ++ [LF] ++ lit "END MODULE;")
           (lit "sample.esql"));
    [reflexivity | vm_compute; discriminate | reflexivity].
Defined.
